(** * fitsphere_sendOTP: password-reset one-time passwords

  A shallow embedding of the two Appwrite functions of the repository,
  [send_otp/index.js] (issuance) and [verify_otp/index.js]
  (verification), together with the time-based one-time-password engine
  they both configure ([digits = 6], [step = 600], [window = 0]).

  Conventions.
  - A JavaScript string is a [string]; one character stands for one
    UTF-16 code unit (code units below 256).
  - Bytes and 32-bit words are [Z] values, wrap-around written out.
  - Time is a [Z], in seconds since the epoch.
  - A field of the parsed body is any JSON value.  One that is not a
    string is known by what the handlers observe of it ([observed]); the
    directory, the engine and the password update are handed a field
    under its text. *)

From Stdlib Require Import ZArith List Lia Bool Ascii String.
From stdpp Require Import base strings gmap.
Import ListNotations.

Local Open Scope string_scope.
Local Open Scope Z_scope.

(** ** SHA-1 (FIPS 180-4) on lists of bytes

    Modelled from the spec: the hash under the "HMAC-based
    one-time-password" of section 4.1.  The handlers get it from the otplib
    package, which is not part of the sources. *)

Module SHA1.

Definition mask32 : Z := 0xFFFFFFFF.

Definition add32 (x y : Z) : Z := Z.land (x + y) mask32.

Definition rotl32 (n x : Z) : Z :=
  Z.land (Z.lor (Z.shiftl x n) (Z.shiftr x (32 - n))) mask32.

Definition not32 (x : Z) : Z := Z.lxor x mask32.

(** Big-endian encoding of [x] on [n] bytes. *)
Fixpoint be_bytes (n : nat) (x : Z) : list Z :=
  match n with
  | O => []
  | S k => Z.land (Z.shiftr x (8 * Z.of_nat k)) 0xFF :: be_bytes k x
  end.

Definition be_word (bs : list Z) : Z :=
  fold_left (fun acc b => Z.lor (Z.shiftl acc 8) (Z.land b 0xFF)) bs 0.

(** Padding: a 1 bit, zeros up to 56 mod 64, then the bit length on 8 bytes. *)
Definition pad (msg : list Z) : list Z :=
  let len := Z.of_nat (length msg) in
  let zeros := Z.to_nat ((55 - len) mod 64) in
  msg ++ [0x80] ++ repeat 0 zeros ++ be_bytes 8 (8 * len).

Fixpoint words (n : nat) (bs : list Z) : list Z :=
  match n with
  | O => []
  | S k => be_word (firstn 4 bs) :: words k (skipn 4 bs)
  end.

Fixpoint blocks (n : nat) (bs : list Z) : list (list Z) :=
  match n with
  | O => []
  | S k => words 16 (firstn 64 bs) :: blocks k (skipn 64 bs)
  end.

(** Message schedule: [w] grows from 16 to 80 words. *)
Fixpoint schedule (n : nat) (w : list Z) : list Z :=
  match n with
  | O => w
  | S k =>
      let t := length w in
      let x := Z.lxor (Z.lxor (nth (t - 3) w 0) (nth (t - 8) w 0))
                      (Z.lxor (nth (t - 14) w 0) (nth (t - 16) w 0)) in
      schedule k (w ++ [rotl32 1 x])
  end.

Definition f (t : nat) (b c d : Z) : Z :=
  if (t <? 20)%nat then Z.lor (Z.land b c) (Z.land (not32 b) d)
  else if (t <? 40)%nat then Z.lxor (Z.lxor b c) d
  else if (t <? 60)%nat then
    Z.lor (Z.lor (Z.land b c) (Z.land b d)) (Z.land c d)
  else Z.lxor (Z.lxor b c) d.

Definition K (t : nat) : Z :=
  if (t <? 20)%nat then 0x5A827999
  else if (t <? 40)%nat then 0x6ED9EBA1
  else if (t <? 60)%nat then 0x8F1BBCDC
  else 0xCA62C1D6.

Record hash := Hash { h0 : Z; h1 : Z; h2 : Z; h3 : Z; h4 : Z }.

Definition init : hash :=
  Hash 0x67452301 0xEFCDAB89 0x98BADCFE 0x10325476 0xC3D2E1F0.

Definition round (s : hash * nat) (wt : Z) : hash * nat :=
  let '(Hash a b c d e, t) := s in
  let temp := add32 (add32 (add32 (add32 (rotl32 5 a) (f t b c d)) e) (K t)) wt in
  (Hash temp a (rotl32 30 b) c d, S t).

Definition compress (h : hash) (block : list Z) : hash :=
  let '(Hash a b c d e, _) := fold_left round (schedule 64 block) (h, O) in
  Hash (add32 (h0 h) a) (add32 (h1 h) b) (add32 (h2 h) c)
       (add32 (h3 h) d) (add32 (h4 h) e).

Definition digest (msg : list Z) : list Z :=
  let p := pad msg in
  let h := fold_left compress (blocks (length p / 64) p) init in
  be_bytes 4 (h0 h) ++ be_bytes 4 (h1 h) ++ be_bytes 4 (h2 h)
    ++ be_bytes 4 (h3 h) ++ be_bytes 4 (h4 h).

End SHA1.

(** ** HMAC (RFC 2104) over SHA-1

    Modelled from the spec: the HMAC of section 4.1 (otplib is not part of
    the sources). *)

Module HMAC.

Definition block_size : nat := 64.

Definition block_key (key : list Z) : list Z :=
  let k := if (block_size <? length key)%nat then SHA1.digest key else key in
  k ++ repeat 0 (block_size - length k).

Definition xor_pad (p : Z) (key : list Z) : list Z :=
  map (fun b => Z.lxor b p) key.

Definition hmac_sha1 (key msg : list Z) : list Z :=
  let k := block_key key in
  SHA1.digest (xor_pad 0x5c k ++ SHA1.digest (xor_pad 0x36 k ++ msg)).

End HMAC.

(** ** The time-based one-time-password engine *)

(** Constants of both handlers (send_otp/index.js:24-25,
  verify_otp/index.js:18-19). *)
Definition OTP_EXPIRY_MINUTES : Z := 10.
Definition OTP_STEP_SECONDS : Z := OTP_EXPIRY_MINUTES * 60.

Module Totp.

(** The options object both handlers assign to [authenticator.options]. *)
Record options := Options { digits : nat; step : Z; window : nat }.

(** RFC 4648 base32 alphabet: [A-Z] then [2-7]. *)
Definition base32_value (c : ascii) : option Z :=
  let n := Z.of_N (Ascii.N_of_ascii c) in
  if (65 <=? n) && (n <=? 90) then Some (n - 65)
  else if (50 <=? n) && (n <=? 55) then Some (n - 24)
  else None.

(** Modelled from the spec: base32 decoding of a stored secret (section
    4.2; otplib is not part of the sources).  [buf] holds the [bits]
    pending bits that do not yet fill a byte; a character outside the
    alphabet is an invalid encoding. *)
Fixpoint base32_decode (s : string) (buf bits : Z) : option (list Z) :=
  match s with
  | EmptyString => Some []
  | String c r =>
      match base32_value c with
      | None => None
      | Some v =>
          let buf := Z.lor (Z.shiftl buf 5) v in
          let bits := bits + 5 in
          if 8 <=? bits then
            match base32_decode r (Z.land buf (Z.ones (bits - 8))) (bits - 8) with
            | Some out => Some (Z.shiftr buf (bits - 8) :: out)
            | None => None
            end
          else base32_decode r buf bits
      end
  end.

(** Modelled from the spec: the secret's decoding, part of the TOTP engine
    (the otplib package, absent from the sources).  Section 4.2: the secret
    is "encoded for storage/transport (e.g., base32)"; section 4.1: a
    "malformed secret (empty/invalid encoding)" is an error, here [None]. *)
Definition keyDecoder (secret : string) : option (list Z) :=
  if decide (secret = "") then None else base32_decode secret 0 0.

Definition digit_char (d : Z) : ascii :=
  Ascii.ascii_of_N (Z.to_N (48 + d)).

(** The [n] low decimal digits of [x], zero-padded, in front of [acc]. *)
Fixpoint decimal (n : nat) (x : Z) (acc : string) : string :=
  match n with
  | O => acc
  | S k => decimal k (x / 10) (String (digit_char (x mod 10)) acc)
  end.

(** Modelled from the spec: the HMAC-based one-time password of RFC 4226
    (the otplib package is absent from the sources).  Section 4.1: "an
    HMAC-based one-time-password over a counter [...] truncated/formatted
    to exactly 6 decimal digits (zero-padded)". *)
Definition hotp (o : options) (key : list Z) (counter : Z) : string :=
  let d := HMAC.hmac_sha1 key (SHA1.be_bytes 8 counter) in
  let offset := Z.to_nat (Z.land (nth 19 d 0) 0xF) in
  let bin :=
    Z.lor (Z.lor (Z.shiftl (Z.land (nth offset d 0) 0x7F) 24)
                 (Z.shiftl (nth (offset + 1) d 0) 16))
          (Z.lor (Z.shiftl (nth (offset + 2) d 0) 8)
                 (nth (offset + 3) d 0)) in
  decimal (digits o) (bin mod 10 ^ Z.of_nat (digits o)) "".

(** Modelled from the spec: the counter of section 4.1,
    [floor(timestamp / stepSeconds)] (otplib is not part of the sources). *)
Definition counter (o : options) (T : Z) : Z := T / step o.

(** Modelled from the spec: [derive(secret, timestamp) -> code] of the TOTP
    engine (otplib, absent from the sources), section 4.1.  [None] is the
    configuration error of a malformed secret. *)
Definition derive (o : options) (S : string) (T : Z) : option string :=
  match keyDecoder S with
  | Some key => Some (hotp o key (counter o T))
  | None => None
  end.

(** Modelled from the spec: the counters a candidate is compared against
    (otplib is not part of the sources), the current one and [window o]
    steps backward and forward; section 4.1 has no such window. *)
Definition counters (o : options) (T : Z) : list Z :=
  map (fun i => counter o T - Z.of_nat (window o) + Z.of_nat i)
      (seq 0 (2 * window o + 1)).

(** Modelled from the spec: [matches(secret, candidateCode, timestamp) ->
    bool] of the TOTP engine (otplib, absent from the sources), section
    4.1: "recomputes derive(secret, timestamp) and compares for exact
    string/numeric equality".  [None] is the fault of a malformed secret. *)
Definition matches (o : options) (S : string) (candidate : string) (T : Z)
  : option bool :=
  match keyDecoder S with
  | Some key =>
      Some (existsb (fun c => String.eqb candidate (hotp o key c)) (counters o T))
  | None => None
  end.

End Totp.

(** [authenticator.options = { digits: 6, step: OTP_STEP_SECONDS, window: 0 }]
  (send_otp/index.js:27-31, verify_otp/index.js:21-25), and the two calls
  the handlers make, at the wall-clock time [now] of the call. *)
Module authenticator.

Definition options : Totp.options :=
  {| Totp.digits := 6; Totp.step := OTP_STEP_SECONDS; Totp.window := 0 |}.

Definition generate (now : Z) (secret : string) : option string :=
  Totp.derive options secret now.

Definition verify (now : Z) (token secret : string) : option bool :=
  Totp.matches options secret token now.

End authenticator.

(** The bytes of an ASCII key. *)
Definition bytes_of_string (s : string) : list Z :=
  map (fun c => Z.of_N (Ascii.N_of_ascii c)) (String.list_ascii_of_string s).

(** ** Regular expressions

    The two patterns of the handlers are anchored at both ends, so
    [RegExp.prototype.test] is a full match, decided here with
    derivatives. *)

Module Regex.

Inductive re :=
| Void
| Eps
| Class (p : ascii -> bool)
| Cat (r1 r2 : re)
| Alt (r1 r2 : re)
| Star (r : re).

Fixpoint nullable (r : re) : bool :=
  match r with
  | Void | Class _ => false
  | Eps | Star _ => true
  | Cat r1 r2 => nullable r1 && nullable r2
  | Alt r1 r2 => nullable r1 || nullable r2
  end.

Fixpoint deriv (c : ascii) (r : re) : re :=
  match r with
  | Void | Eps => Void
  | Class p => if p c then Eps else Void
  | Cat r1 r2 =>
      if nullable r1 then Alt (Cat (deriv c r1) r2) (deriv c r2)
      else Cat (deriv c r1) r2
  | Alt r1 r2 => Alt (deriv c r1) (deriv c r2)
  | Star r1 => Cat (deriv c r1) (Star r1)
  end.

(** [/^r$/.test(s)] *)
Fixpoint test (r : re) (s : string) : bool :=
  match s with
  | EmptyString => nullable r
  | String c s' => test (deriv c r) s'
  end.

(** [r+] and [r{n}] *)
Definition plus (r : re) : re := Cat r (Star r).

Fixpoint times (n : nat) (r : re) : re :=
  match n with
  | O => Eps
  | S k => Cat r (times k r)
  end.

Definition code (c : ascii) : Z := Z.of_N (Ascii.N_of_ascii c).

(** [\d]: the ASCII digits. *)
Definition digit (c : ascii) : bool := (48 <=? code c) && (code c <=? 57).

(** [\s], for code units below 256: tab, line feed, vertical tab, form
    feed, carriage return, space and no-break space. *)
Definition space (c : ascii) : bool :=
  ((9 <=? code c) && (code c <=? 13)) || (code c =? 32) || (code c =? 160).

Definition char (x : ascii) (c : ascii) : bool := code c =? code x.

(** [[^\s@]] *)
Definition not_space_at (c : ascii) : bool := negb (space c || char "@" c).

(** The strings a pattern denotes. *)
Inductive lang : re -> string -> Prop :=
| lang_Eps : lang Eps EmptyString
| lang_Class p c : p c = true -> lang (Class p) (String c EmptyString)
| lang_Cat r1 r2 s1 s2 :
    lang r1 s1 -> lang r2 s2 -> lang (Cat r1 r2) (s1 +:+ s2)
| lang_Alt_l r1 r2 s : lang r1 s -> lang (Alt r1 r2) s
| lang_Alt_r r1 r2 s : lang r2 s -> lang (Alt r1 r2) s
| lang_Star_nil r : lang (Star r) EmptyString
| lang_Star_cons r s1 s2 :
    lang r s1 -> lang (Star r) s2 -> lang (Star r) (s1 +:+ s2).

End Regex.

(** [/^\d{6}$/] (verify_otp/index.js:45) *)
Definition otpRegex : Regex.re := Regex.times 6 (Regex.Class Regex.digit).

(** [/^[^\s@]+@[^\s@]+\.[^\s@]+$/] (send_otp/index.js:54) *)
Definition emailRegex : Regex.re :=
  Regex.Cat (Regex.plus (Regex.Class Regex.not_space_at))
   (Regex.Cat (Regex.Class (Regex.char "@"))
     (Regex.Cat (Regex.plus (Regex.Class Regex.not_space_at))
       (Regex.Cat (Regex.Class (Regex.char "."))
         (Regex.plus (Regex.Class Regex.not_space_at))))).

(** ** JavaScript values *)

(** What the string attribute [passwordResetSecret] of a profile holds,
    and what [req.body] is: nothing, [null] or a string. *)
Inductive value :=
| VUndefined
| VNull
| VString (s : string).

(** A boolean, a number, an array or an object, as the handlers observe
    it: through [!v]; through its text [String(v)], which the pattern
    tests and the template literals compute and under which a collaborator
    is handed the value; and through [v.length < 8].  The conversion to a
    string throws a [TypeError] for an object whose [toString] is not
    callable, as [{ toString: 1 }]; so does the comparison when [v.length]
    is such an object.  A number or a boolean has no [length], and
    [undefined < 8] is false. *)
Record observed := Observed {
  observed_truthy : bool;
  observed_string : string;
  observed_converts : bool;             (* [String(v)] returns *)
  observed_short : option bool }.       (* [None]: [v.length < 8] throws *)

(** Any value a field of the parsed body takes. *)
Inductive jsvalue :=
| JsUndefined
| JsNull
| JsString (s : string)
| JsOther (o : observed).

Definition js_of_value (v : value) : jsvalue :=
  match v with
  | VUndefined => JsUndefined
  | VNull => JsNull
  | VString s => JsString s
  end.

Coercion js_of_value : value >-> jsvalue.

(** [!v] is [negb (truthy v)]: [undefined], [null] and [""] are falsy. *)
Definition truthy (v : jsvalue) : bool :=
  match v with
  | JsString s => negb (String.eqb s "")
  | JsOther o => observed_truthy o
  | _ => false
  end.

(** [String(v)] *)
Definition ToString (v : jsvalue) : string :=
  match v with
  | JsUndefined => "undefined"
  | JsNull => "null"
  | JsString s => s
  | JsOther o => observed_string o
  end.

(** [String(v)] returns. *)
Definition converts (v : jsvalue) : bool :=
  match v with
  | JsOther o => observed_converts o
  | _ => true
  end.

(** [v.length < 8]; [None] when it throws a [TypeError], as it does for
    [undefined] and [null]. *)
Definition short (v : jsvalue) : option bool :=
  match v with
  | JsString s => Some (Z.of_nat (String.length s) <? 8)
  | JsOther o => observed_short o
  | _ => None
  end.

(** [a || b] *)
Definition or_else (a b : jsvalue) : jsvalue := if truthy a then a else b.

(** The result of [JSON.parse]: [null], an object, or any other value (a
    boolean, a number, a string or an array: it has none of the properties
    the handlers read). *)
Inductive json :=
| JNull
| JOther
| JObject (props : list (string * jsvalue)).

Fixpoint property (k : string) (props : list (string * jsvalue)) : jsvalue :=
  match props with
  | [] => JsUndefined
  | (k', v) :: r => if String.eqb k' k then v else property k r
  end.

(** ** The collaborators: directory, profile store, mailer *)

(** A user of the Users service: [$id] and [email]. *)
Record user := User { user_id : string; user_email : string }.

(** A document of [USERS_COLLECTION_ID]: [$id] and [passwordResetSecret]. *)
Record document := Document { doc_id : string; passwordResetSecret : value }.

(** The message handed to the mail transport: recipient, code and validity.
    Subject, HTML and text are fixed templates around [mail_code] and
    [mail_expiry]. *)
Record mail := Mail { mail_to : string; mail_code : string; mail_expiry : Z }.

Record world := World {
  accounts : list user;
  passwords : gmap string string;      (* user [$id] to password *)
  documents : gmap string value;       (* document [$id] to [passwordResetSecret] *)
  outbox : list mail }.

(** What one invocation finds outside: the clock, the random secret
    [authenticator.generateSecret()] would return, and which collaborator
    calls throw. *)
Record env := Env {
  now : Z;
  generateSecret : string;
  users_list_throws : bool;
  listDocuments_throws : bool;
  updateDocument_throws : bool;
  updatePassword_throws : bool;
  sendMail_throws : bool }.

Inductive call :=
| UsersList (email : string)
| ListDocuments (id : string)
| UpdateDocument (id : string) (secret : value)
| UpdatePassword (id : string) (password : string)
| SendMail (m : mail).

Inductive exn :=
| SyntaxError
| TypeError
| ServiceError (c : call)
| EngineError.

Inductive entry :=
| Log (m : string)
| Error (m : string) (err : exn).

Record response := Response {
  success : bool;
  message : string;
  expiresInMinutes : option Z;
  status : option Z }.                  (* [None]: [res.json] got no status *)

Record state := State {
  world_of : world;
  calls : list call;
  console : list entry }.

(** ** The handler monad: state, early [return] and [throw] *)

Inductive outcome (A : Type) :=
| Value (a : A)
| Returned (r : response)
| Thrown (e : exn).
Arguments Value {A} a.
Arguments Returned {A} r.
Arguments Thrown {A} e.

Definition M (A : Type) : Type := state -> outcome A * state.

Definition pure {A} (a : A) : M A := fun s => (Value a, s).

Definition bind {A B} (c : M A) (k : A -> M B) : M B :=
  fun s =>
    match c s with
    | (Value a, s') => k a s'
    | (Returned r, s') => (Returned r, s')
    | (Thrown e, s') => (Thrown e, s')
    end.

Notation "'let*' x ':=' c 'in' k" := (bind c (fun x => k))
  (at level 10, x name, k at level 200).
Notation "c >> k" := (bind c (fun _ => k))
  (at level 100, right associativity).

Definition throw {A} (e : exn) : M A := fun s => (Thrown e, s).

(** [try { c } catch (err) { h err }] *)
Definition try_catch {A} (c : M A) (h : exn -> M A) : M A :=
  fun s =>
    match c s with
    | (Thrown e, s') => h e s'
    | r => r
    end.

(** [return res.json(body)] and [return res.json(body, status)] *)
Definition respond {A} (r : response) : M A :=
  fun s => (Returned r, s).

Definition return_json {A} (ok : bool) (msg : string) (st : Z) : M A :=
  respond (Response ok msg None (Some st)).

Definition log (m : string) : M unit :=
  fun s => (Value tt, State (world_of s) (calls s) (console s ++ [Log m])).

Definition error (m : string) (err : exn) : M unit :=
  fun s => (Value tt, State (world_of s) (calls s) (console s ++ [Error m err])).

Definition record (c : call) (s : state) : state :=
  State (world_of s) (calls s ++ [c]) (console s).

Definition set_world (w : world) (s : state) : state :=
  State w (calls s) (console s).

(** ** The services, as the handlers call them *)

Definition matching_users (w : world) (email : string) : list user :=
  filter (fun u => String.eqb (user_email u) email) (accounts w).

(** [users.list([Query.equal("email", [email])])]: the matching users;
    [usersList.total] is their number. *)
Definition users_list (e : env) (email : string) : M (list user) :=
  fun s =>
    let s := record (UsersList email) s in
    if users_list_throws e then (Thrown (ServiceError (UsersList email)), s)
    else
      (Value (matching_users (world_of s) email), s).

(** [database.listDocuments(db, collection, [Query.equal("$id", id)])] *)
Definition listDocuments (e : env) (id : string) : M (list document) :=
  fun s =>
    let s := record (ListDocuments id) s in
    if listDocuments_throws e then (Thrown (ServiceError (ListDocuments id)), s)
    else
      (Value match documents (world_of s) !! id with
             | Some v => [Document id v]
             | None => []
             end, s).

(** [database.updateDocument(db, collection, id, { passwordResetSecret: v })];
    updating a document that does not exist throws. *)
Definition updateDocument (e : env) (id : string) (v : value) : M unit :=
  fun s =>
    let s := record (UpdateDocument id v) s in
    let w := world_of s in
    match documents w !! id with
    | Some _ =>
        if updateDocument_throws e
        then (Thrown (ServiceError (UpdateDocument id v)), s)
        else (Value tt,
              set_world (World (accounts w) (passwords w)
                               (<[id := v]> (documents w)) (outbox w)) s)
    | None => (Thrown (ServiceError (UpdateDocument id v)), s)
    end.

(** [users.updatePassword(id, password)] *)
Definition updatePassword (e : env) (id : string) (password : string) : M unit :=
  fun s =>
    let s := record (UpdatePassword id password) s in
    let w := world_of s in
    if updatePassword_throws e
    then (Thrown (ServiceError (UpdatePassword id password)), s)
    else (Value tt,
          set_world (World (accounts w) (<[id := password]> (passwords w))
                           (documents w) (outbox w)) s).

(** [transporter.sendMail({ from, to, subject, html, text })] *)
Definition sendMail (e : env) (m : mail) : M unit :=
  fun s =>
    let s := record (SendMail m) s in
    let w := world_of s in
    if sendMail_throws e then (Thrown (ServiceError (SendMail m)), s)
    else (Value tt,
          set_world (World (accounts w) (passwords w) (documents w)
                           (outbox w ++ [m])) s).

(** [authenticator.generate(secret)] and [authenticator.verify({ token,
    secret })]: the engine's fault is a thrown exception. *)
Definition authenticator_generate (e : env) (secret : string) : M string :=
  match authenticator.generate (now e) secret with
  | Some otp => pure otp
  | None => throw EngineError
  end.

Definition authenticator_verify (e : env) (token secret : string) : M bool :=
  match authenticator.verify (now e) token secret with
  | Some b => pure b
  | None => throw EngineError
  end.

(** [payload.k]: only an object has the properties the handlers read. *)
Definition get (payload : json) (k : string) : jsvalue :=
  match payload with
  | JObject props => property k props
  | _ => JsUndefined
  end.

(** [const { k } = payload]: destructuring [null] throws. *)
Definition destructure (payload : json) (k : string) : M jsvalue :=
  match payload with
  | JNull => throw TypeError
  | _ => pure (get payload k)
  end.

(** [v.length < 8]: reading a property of [undefined] or [null] throws. *)
Definition shorter_than_8 (v : jsvalue) : M bool :=
  match short v with
  | Some b => pure b
  | None => throw TypeError
  end.

(** [r.test(v)]: [v] is converted to a string first. *)
Definition RegExp_test (r : Regex.re) (v : jsvalue) : M bool :=
  if converts v then pure (Regex.test r (ToString v)) else throw TypeError.

(** [if (list.total === 0) return none; x = list.items[0]]: the total is
    the number of items. *)
Definition first_or {A} (l : list A) (none : M A) : M A :=
  match head l with
  | None => none
  | Some x => pure x
  end.

(** The request: [req.body]. *)
Record request := Request { body : value }.

(** One invocation of a handler against the world [w]. *)
Definition invoke (h : M Empty_set) (w : world) : outcome Empty_set * state :=
  h (State w [] []).

Section Handlers.

(** [JSON.parse]: [None] when it throws a [SyntaxError]. *)
Variable JSON_parse : string -> option json.

(** [JSON.parse(req.body || "{}")] *)
Definition payload_of (req : request) : option json :=
  JSON_parse (ToString (or_else (body req) (VString "{}"))).

Definition parse_body (req : request) : M json :=
  match payload_of req with
  | Some payload => pure payload
  | None => throw SyntaxError
  end.

(** *** verify_otp/index.js, the body of the outer [try] (lines 31-200) *)
Definition verify_otp_try (e : env) (req : request) : M Empty_set :=
  let* payload := parse_body req in
  let* email := destructure payload "email" in
  let* otp := destructure payload "otp" in
  let* newPassword := destructure payload "newPassword" in
  if negb (truthy email) || negb (truthy otp) || negb (truthy newPassword) then
    return_json false "Email, OTP, and new password are required" 400
  else
    let* sixDigits := RegExp_test otpRegex otp in
    if negb sixDigits then
      return_json false "Invalid OTP format. OTP must be 6 digits." 400
    else
    let* short := shorter_than_8 newPassword in
    if short then
      return_json false "Password must be at least 8 characters long" 400
    else
      let* user :=
        try_catch
          (let* usersList := users_list e (ToString email) in
           first_or usersList
             (return_json false "No account found with this email address" 404))
          (fun err =>
             error "Error finding user:" err >>
             return_json false "Error verifying email address" 500) in
      let* userDocument :=
        try_catch
          (let* userDocs := listDocuments e (user_id user) in
           first_or userDocs (return_json false "User profile not found" 404))
          (fun err =>
             error "Error fetching user document:" err >>
             return_json false "Error accessing user profile" 500) in
      let secret := passwordResetSecret userDocument in
      if negb (truthy secret) then
        return_json false "No OTP request found. Please request a new OTP." 400
      else
        let* isValid :=
          try_catch
            (authenticator_verify e (ToString otp) (ToString secret))
            (fun err =>
               error "Error verifying TOTP:" err >>
               return_json false "Invalid OTP or OTP has expired" 400) in
        if negb isValid then
          return_json false
            "Invalid OTP or OTP has expired. Please request a new OTP." 400
        else
          log ("OTP verified successfully for user " +:+ user_id user) >>
          try_catch
            (updatePassword e (user_id user) (ToString newPassword) >>
             log ("Password updated successfully for user " +:+ user_id user))
            (fun err =>
               error "Error updating password:" err >>
               return_json false "Failed to update password. Please try again." 500) >>
          try_catch
            (updateDocument e (doc_id userDocument) VNull >>
             log ("Password reset secret removed for user " +:+ user_id user))
            (fun err =>
               (* the second argument, [err.message], is left out *)
               log "Note: Could not regenerate secret, but password was updated:") >>
          respond
            (Response true
               "Password reset successful! You can now log in with your new password."
               None None).

(** [module.exports] of verify_otp/index.js: the outer [try]/[catch]. *)
Definition verify_otp (e : env) (req : request) : M Empty_set :=
  try_catch (verify_otp_try e req)
    (fun err =>
       error "Unexpected error:" err >>
       return_json false "An unexpected error occurred. Please try again." 500).

(** *** send_otp/index.js, the body of the outer [try] (lines 43-299) *)
Definition send_otp_try (e : env) (req : request) : M Empty_set :=
  let* payload := parse_body req in
  let* email := destructure payload "email" in
  if negb (truthy email) then return_json false "Email is required" 400
  else
    let* wellFormed := RegExp_test emailRegex email in
    if negb wellFormed then return_json false "Invalid email format" 400
    else
    let* user :=
      try_catch
        (let* usersList := users_list e (ToString email) in
         first_or usersList
           (return_json false "No account found with this email address" 404))
        (fun err =>
           error "Error finding user:" err >>
           return_json false "Error verifying email address" 500) in
    let* userDocument :=
      try_catch
        (let* userDocs := listDocuments e (user_id user) in
         first_or userDocs (return_json false "User profile not found" 404))
        (fun err =>
           error "Error fetching user document:" err >>
           return_json false "Error accessing user profile" 500) in
    let* secret :=
      let secret := passwordResetSecret userDocument in
      if negb (truthy secret) then
        let secret := generateSecret e in
        try_catch
          (updateDocument e (doc_id userDocument) (VString secret) >>
           log ("Generated new password reset secret for user " +:+ user_id user))
          (fun err =>
             error "Error updating user secret:" err >>
             return_json false "Failed to generate OTP. Please try again." 500) >>
        pure secret
      else pure (ToString secret) in
    let* otp := authenticator_generate e secret in
    log ("Generated TOTP for " +:+ ToString email +:+ ": " +:+ otp) >>
    try_catch
      (sendMail e (Mail (ToString email) otp OTP_EXPIRY_MINUTES) >>
       log ("OTP email sent successfully to " +:+ ToString email))
      (fun err =>
         error "Error sending email:" err >>
         return_json false "Failed to send OTP email. Please try again." 500) >>
    respond
      (Response true
         ("OTP sent to " +:+ ToString email +:+ ". Please check your inbox.")
         (Some OTP_EXPIRY_MINUTES) None).

(** [module.exports] of send_otp/index.js: the outer [try]/[catch]. *)
Definition send_otp (e : env) (req : request) : M Empty_set :=
  try_catch (send_otp_try e req)
    (fun err =>
       error "Unexpected error:" err >>
       return_json false "An unexpected error occurred. Please try again." 500).

(** The body parses to a payload, not [null], whose fields are these. *)
Definition carries (req : request) (email otp newPassword : jsvalue) : Prop :=
  exists payload,
    payload_of req = Some payload /\ payload <> JNull /\
    get payload "email" = email /\ get payload "otp" = otp /\
    get payload "newPassword" = newPassword.

Definition carries_email (req : request) (email : jsvalue) : Prop :=
  exists payload,
    payload_of req = Some payload /\ payload <> JNull /\
    get payload "email" = email.

End Handlers.

(** ** Vocabulary of the statements *)

(** Exactly six decimal digits. *)
Definition six_digits (s : string) : bool :=
  (String.length s =? 6)%nat && forallb Regex.digit (String.list_ascii_of_string s).

(** A non-empty run of characters other than white space and [@]. *)
Definition plain (s : string) : Prop :=
  s <> "" /\
  forallb Regex.not_space_at (String.list_ascii_of_string s) = true.

(** The time window of a timestamp. *)
Definition window_of (T : Z) : Z := T / 600.

(** Both lookups of a handler answer. *)
Definition lookups_succeed (e : env) : Prop :=
  users_list_throws e = false /\ listDocuments_throws e = false.

(** [email] resolves to [u], whose profile holds the non-empty [secret]. *)
Definition pending_reset (w : world) (email : string) (u : user) (secret : string)
  : Prop :=
  head (matching_users w email) = Some u /\
  documents w !! user_id u = Some (VString secret) /\
  secret <> "".

(** A verification request that passes validation. *)
Definition well_formed (email otp newPassword : string) : Prop :=
  email <> "" /\ six_digits otp = true /\ (8 <= String.length newPassword)%nat.

(** The same of fields of any kind, as the handler tests them: each is
    truthy, the text of the code is six digits, and the length test of
    the new password returns false. *)
Definition validated (email otp newPassword : jsvalue) : Prop :=
  truthy email = true /\ truthy otp = true /\ truthy newPassword = true /\
  converts otp = true /\ six_digits (ToString otp) = true /\
  short newPassword = Some false.

(** The responses the statements name. *)
Definition failure (msg : string) (st : Z) : response :=
  Response false msg None (Some st).

Definition reset_done : response :=
  Response true
    "Password reset successful! You can now log in with your new password."
    None None.

(** ** A reference [JSON.parse] for concrete requests

    The fragment: [null], and objects whose properties are [null],
    [true], [false], a non-negative integer of at most 15 digits, a
    string without escapes, or an object with one such property, with no
    white space between tokens.  What lies outside is rejected. *)

Module Json.

Definition dquote : ascii := Ascii.ascii_of_N 34.

(** The characters up to the closing quote, and what follows it. *)
Fixpoint string_literal (s : string) : option (string * string) :=
  match s with
  | EmptyString => None
  | String c r =>
      if Ascii.eqb c dquote then Some (EmptyString, r)
      else if Ascii.eqb c "\" || (Z.of_N (Ascii.N_of_ascii c) <? 32) then None
      else
        match string_literal r with
        | Some (x, r') => Some (String c x, r')
        | None => None
        end
  end.

(** The leading decimal digits, and what follows them. *)
Fixpoint digits (s : string) : string * string :=
  match s with
  | String c r =>
      if Regex.digit c then let (d, r') := digits r in (String c d, r')
      else (EmptyString, s)
  | EmptyString => (EmptyString, EmptyString)
  end.

(** An integer literal: no leading zero; [String(n)] is the literal, [0]
    is falsy. *)
Definition number (s : string) : option (jsvalue * string) :=
  let (d, r) := digits s in
  match d with
  | EmptyString => None
  | String "0" (String _ _) => None
  | _ =>
      if (String.length d <=? 15)%nat
      then Some (JsOther (Observed (negb (String.eqb d "0")) d true (Some false)), r)
      else None
  end.

Definition literal (s : string) : option (jsvalue * string) :=
  match s with
  | String "n" (String "u" (String "l" (String "l" r))) => Some (JsNull, r)
  | String "t" (String "r" (String "u" (String "e" r))) =>
      Some (JsOther (Observed true "true" true (Some false)), r)
  | String "f" (String "a" (String "l" (String "s" (String "e" r)))) =>
      Some (JsOther (Observed false "false" true (Some false)), r)
  | String c r =>
      if Ascii.eqb c dquote then
        match string_literal r with
        | Some (x, r') => Some (JsString x, r')
        | None => None
        end
      else number s
  | EmptyString => None
  end.

(** An object with one property, [k], other than [length]: it is truthy
    and has no [length]; its text is [[object Object]], unless [k] is
    [toString]: a [toString] of its own that is not callable makes the
    conversion throw. *)
Definition nested (s : string) : option (jsvalue * string) :=
  match s with
  | String "{" (String c r) =>
      if Ascii.eqb c dquote then
        match string_literal r with
        | Some (k, String ":" r1) =>
            match literal r1 with
            | Some (_, String "}" r2) =>
                if String.eqb k "length" then None
                else
                  Some (JsOther (Observed true "[object Object]"
                                   (negb (String.eqb k "toString")) (Some false)),
                        r2)
            | _ => None
            end
        | _ => None
        end
      else None
  | _ => None
  end.

Definition item (s : string) : option (jsvalue * string) :=
  match literal s with
  | Some x => Some x
  | None => nested s
  end.

(** A repeated key keeps its last value. *)
Definition define (k : string) (v : jsvalue) (later : list (string * jsvalue))
  : list (string * jsvalue) :=
  if existsb (fun p => String.eqb (fst p) k) later then later else (k, v) :: later.

(** The members of an object, from the opening quote of a key on. *)
Fixpoint members (fuel : nat) (s : string) : option (list (string * jsvalue)) :=
  match fuel, s with
  | S k, String c r =>
      if Ascii.eqb c dquote then
        match string_literal r with
        | Some (key, String ":" r1) =>
            match item r1 with
            | Some (v, String "," r2) =>
                match members k r2 with
                | Some later => Some (define key v later)
                | None => None
                end
            | Some (v, String "}" EmptyString) => Some [(key, v)]
            | _ => None
            end
        | _ => None
        end
      else None
  | _, _ => None
  end.

Definition parse (s : string) : option json :=
  match s with
  | String "n" (String "u" (String "l" (String "l" EmptyString))) => Some JNull
  | String "{" (String "}" EmptyString) => Some (JObject [])
  | String "{" r =>
      match members (String.length r) r with
      | Some props => Some (JObject props)
      | None => None
      end
  | _ => None
  end.

Definition quoted (s : string) : string :=
  String dquote s +:+ String dquote EmptyString.

(** [{"k1":"v1",...}] *)
Fixpoint object_members (props : list (string * string)) : string :=
  match props with
  | [] => "}"
  | [(k, v)] => quoted k +:+ ":" +:+ quoted v +:+ "}"
  | (k, v) :: r => quoted k +:+ ":" +:+ quoted v +:+ "," +:+ object_members r
  end.

Definition object (props : list (string * string)) : string :=
  "{" +:+ object_members props.

(** The same, each value given by its text. *)
Fixpoint raw_members (props : list (string * string)) : string :=
  match props with
  | [] => "}"
  | [(k, t)] => quoted k +:+ ":" +:+ t +:+ "}"
  | (k, t) :: r => quoted k +:+ ":" +:+ t +:+ "," +:+ raw_members r
  end.

Definition raw_object (props : list (string * string)) : string :=
  "{" +:+ raw_members props.

End Json.

(** ** Sample data: one user, [u1], and the requests of the scenarios *)

Module Sample.

Definition secret : string := "JBSWY3DPEHPK3PXP".

Definition u1 : user := User "u1" "u1@example.com".

Definition world_with (v : value) : world :=
  World [u1] ∅ {[ "u1" := v ]} [].

(** No fault, the clock at [T]. *)
Definition calm (T : Z) : env := Env T "GEZDGNBVGY3TQOJQ" false false false false false.

Definition verification (otp newPassword : string) : request :=
  Request (VString (Json.object
    [("email", "u1@example.com"); ("otp", otp); ("newPassword", newPassword)])).

Definition issuance (email : string) : request :=
  Request (VString (Json.object [("email", email)])).

Definition email : string := "u1@example.com".

(** The pending reset of [u1], and the request that confirms it with the
    code of its window. *)
Definition pending : world := world_with (VString secret).

Definition confirm : request := verification "874294" "NewPass123".

Definition at_issue : Z := 2226341399.

(** The same clock, with the clearing write, or the password update,
    throwing. *)
Definition clear_fails : env :=
  Env at_issue "GEZDGNBVGY3TQOJQ" false false true false false.

Definition update_fails : env :=
  Env at_issue "GEZDGNBVGY3TQOJQ" false false false true false.

(** A stored value that is no base32 text: the one character U+00E9. *)
Definition undecodable : string := String (Ascii.ascii_of_N 233) EmptyString.

(** The secret [authenticator.generateSecret()] returns in the samples. *)
Definition fresh_secret : string := "GEZDGNBVGY3TQOJQ".

(** [u1] before any reset, and [u1] without a profile. *)
Definition idle : world := world_with VNull.

Definition no_profile : world := World [u1] ∅ ∅ [].

(** The same clock, with the directory, the profile lookup, or the mail
    transport throwing. *)
Definition directory_down : env :=
  Env at_issue fresh_secret true false false false false.

Definition store_down : env :=
  Env at_issue fresh_secret false true false false false.

Definition mail_fails : env :=
  Env at_issue fresh_secret false false false false true.

(** The confirming request with the number [1] for a new password. *)
Definition numeric_password : request :=
  Request (VString (Json.raw_object
    [("email", Json.quoted email); ("otp", Json.quoted "874294");
     ("newPassword", "1")])).

(** An object that has no text: [{ toString: 1 }]; a confirming request
    with it for a code, and an issuance request with it for an email. *)
Definition unprintable : string := Json.raw_object [("toString", "1")].

Definition unprintable_code : request :=
  Request (VString (Json.raw_object
    [("email", Json.quoted email); ("otp", unprintable);
     ("newPassword", Json.quoted "short1")])).

Definition unprintable_email : request :=
  Request (VString (Json.raw_object [("email", unprintable)])).

End Sample.

(** * Properties of the engine *)

(** RFC 4226, appendix D: the first test values of the reference secret. *)
Example hotp_rfc4226 :
  map (Totp.hotp authenticator.options (bytes_of_string "12345678901234567890"))
      [0; 1; 2; 3; 4]
  = ["755224"; "287082"; "359152"; "969429"; "338314"].
Proof. vm_compute. reflexivity. Qed.

Lemma step_is_600 : Totp.step authenticator.options = 600.
Proof. reflexivity. Qed.

(** With [window: 0] a candidate is compared against one counter only. *)
Lemma counters_strict (T : Z) :
  Totp.counters authenticator.options T = [window_of T].
Proof.
  unfold Totp.counters, Totp.counter, window_of.
  rewrite step_is_600.
  change (Totp.window authenticator.options) with 0%nat.
  cbn [Nat.mul Nat.add seq map Z.of_nat].
  f_equal. lia.
Qed.

Lemma matches_strict (S code : string) (T : Z) :
  Totp.matches authenticator.options S code T =
  match Totp.keyDecoder S with
  | Some key =>
      Some (String.eqb code (Totp.hotp authenticator.options key (window_of T)))
  | None => None
  end.
Proof.
  unfold Totp.matches. rewrite counters_strict.
  destruct (Totp.keyDecoder S); [|reflexivity].
  cbn [existsb]. now rewrite orb_false_r.
Qed.

Lemma derive_strict (S : string) (T : Z) :
  Totp.derive authenticator.options S T =
  match Totp.keyDecoder S with
  | Some key => Some (Totp.hotp authenticator.options key (window_of T))
  | None => None
  end.
Proof.
  unfold Totp.derive, Totp.counter, window_of. now rewrite step_is_600.
Qed.

(** Both calls of the handlers read the clock through its window only. *)
Lemma verify_same_window (T T' : Z) (token secret : string) :
  window_of T = window_of T' ->
  authenticator.verify T token secret = authenticator.verify T' token secret.
Proof.
  intros H. unfold authenticator.verify. rewrite !matches_strict. now rewrite H.
Qed.

Lemma generate_same_window (T T' : Z) (secret : string) :
  window_of T = window_of T' ->
  authenticator.generate T secret = authenticator.generate T' secret.
Proof.
  intros H. unfold authenticator.generate. rewrite !derive_strict. now rewrite H.
Qed.


(** C2. For every secret S that decodes and every timestamp T, a code is
    derived from S at T, and verifying that code against S at the same T
    succeeds, under digits = 6, step = 600, window = 0. *)
Theorem derive_then_matches (S : string) (T : Z) (key : list Z) :
  Totp.keyDecoder S = Some key ->
  exists code,
    Totp.derive authenticator.options S T = Some code /\
    Totp.matches authenticator.options S code T = Some true.
Proof.
  intros Hkey. rewrite derive_strict, Hkey.
  eexists; split; [reflexivity|].
  rewrite matches_strict, Hkey. now rewrite String.eqb_refl.
Qed.

Lemma derive_then_matches_witness :
  Totp.keyDecoder Sample.secret = Some [72; 101; 108; 108; 111; 33; 222; 173; 190; 239] /\
  exists code,
    Totp.derive authenticator.options Sample.secret 2226341399 = Some code /\
    Totp.matches authenticator.options Sample.secret code 2226341399 = Some true.
Proof.
  split; [reflexivity|].
  apply (derive_then_matches Sample.secret 2226341399
           [72; 101; 108; 108; 111; 33; 222; 173; 190; 239]).
  reflexivity.
Defined.

(** C3 fails: the secret JBSWY3DPEHPK3PXP has the code 874294 in two
    adjacent windows, so the code derived in the last second of one window
    verifies in the first second of the next. *)
Lemma matches_across_windows :
  2226341399 / 600 <> 2226341400 / 600 /\
  Totp.derive authenticator.options "JBSWY3DPEHPK3PXP" 2226341399 = Some "874294" /\
  Totp.matches authenticator.options "JBSWY3DPEHPK3PXP" "874294" 2226341400 = Some true.
Proof. vm_compute. repeat split. discriminate. Qed.

(** C3, amended. For every secret S and timestamps T, T' in different
    600-second windows, the code derived from S at T is rejected at T'
    exactly when it differs from the code derived from S at T': the
    candidate is compared with the code of the window of T' alone, no
    backward or forward drift window is applied. *)
Theorem matches_other_window (S code : string) (T T' : Z) :
  T / 600 <> T' / 600 ->
  Totp.derive authenticator.options S T = Some code ->
  (Totp.matches authenticator.options S code T' = Some false <->
   Totp.derive authenticator.options S T' <> Some code).
Proof.
  intros _. rewrite !derive_strict, matches_strict.
  destruct (Totp.keyDecoder S) as [key|]; [|discriminate].
  intros [= <-].
  destruct (String.eqb_spec (Totp.hotp authenticator.options key (window_of T))
              (Totp.hotp authenticator.options key (window_of T'))) as [E|E].
  - split; [discriminate|]. intros H. exfalso. apply H. now rewrite E.
  - split; [|reflexivity]. intros _ H. congruence.
Qed.

Lemma matches_other_window_witness :
  0 / 600 <> 600 / 600 /\
  Totp.derive authenticator.options Sample.secret 0 = Some "282760" /\
  (Totp.matches authenticator.options Sample.secret "282760" 600 = Some false <->
   Totp.derive authenticator.options Sample.secret 600 <> Some "282760").
Proof.
  assert (H0 : 0 / 600 <> 600 / 600) by (vm_compute; discriminate).
  assert (H1 : Totp.derive authenticator.options Sample.secret 0 = Some "282760")
    by (vm_compute; reflexivity).
  split; [exact H0|]. split; [exact H1|].
  exact (matches_other_window Sample.secret "282760" 0 600 H0 H1).
Defined.

(** * Properties of the patterns *)

Lemma test_Void (s : string) : Regex.test Regex.Void s = false.
Proof. induction s as [|c s IH]; [reflexivity|exact IH]. Qed.

Lemma test_Alt (s : string) : forall r1 r2,
  Regex.test (Regex.Alt r1 r2) s = Regex.test r1 s || Regex.test r2 s.
Proof.
  induction s as [|c s IH]; intros r1 r2; [reflexivity|].
  cbn [Regex.test Regex.deriv]. apply IH.
Qed.

Lemma test_Cat_Void (s : string) (r : Regex.re) :
  Regex.test (Regex.Cat Regex.Void r) s = false.
Proof. induction s as [|c s IH]; [reflexivity|exact IH]. Qed.

Lemma test_Cat_Eps (s : string) (r : Regex.re) :
  Regex.test (Regex.Cat Regex.Eps r) s = Regex.test r s.
Proof.
  destruct s as [|c s]; [reflexivity|].
  cbn [Regex.test Regex.deriv Regex.nullable].
  now rewrite test_Alt, test_Cat_Void.
Qed.

Lemma test_times_digit (n : nat) : forall s,
  Regex.test (Regex.times n (Regex.Class Regex.digit)) s =
  (String.length s =? n)%nat && forallb Regex.digit (String.list_ascii_of_string s).
Proof.
  induction n as [|n IH]; intros [|c s]; try reflexivity.
  - cbn [Regex.times Regex.test Regex.deriv]. apply test_Void.
  - cbn [Regex.times Regex.test Regex.deriv Regex.nullable String.length
         String.list_ascii_of_string forallb Nat.eqb].
    destruct (Regex.digit c).
    + rewrite test_Cat_Eps, IH. reflexivity.
    + rewrite test_Cat_Void. now rewrite andb_false_r.
Qed.

(** [/^\d{6}$/] accepts the strings of exactly six decimal digits. *)
Lemma otpRegex_six_digits (s : string) : Regex.test otpRegex s = six_digits s.
Proof. apply test_times_digit. Qed.

(** The codes of the engine have the format the verification handler
    asks for. *)
Lemma digit_char_digit (d : Z) : 0 <= d < 10 -> Regex.digit (Totp.digit_char d) = true.
Proof.
  intros H.
  assert (E : d = 0 \/ d = 1 \/ d = 2 \/ d = 3 \/ d = 4 \/ d = 5 \/ d = 6 \/
              d = 7 \/ d = 8 \/ d = 9) by lia.
  repeat (destruct E as [E|E]; [subst d; reflexivity|]). subst d. reflexivity.
Qed.

Lemma decimal_six_digits (n : nat) : forall x acc,
  String.length (Totp.decimal n x acc) = (n + String.length acc)%nat /\
  forallb Regex.digit (String.list_ascii_of_string (Totp.decimal n x acc)) =
  forallb Regex.digit (String.list_ascii_of_string acc).
Proof.
  induction n as [|n IH]; intros x acc; [split; reflexivity|].
  cbn [Totp.decimal].
  destruct (IH (x / 10) (String (Totp.digit_char (x mod 10)) acc)) as [Hl Hd].
  split.
  - rewrite Hl. cbn [String.length]. lia.
  - rewrite Hd. cbn [String.list_ascii_of_string forallb].
    rewrite digit_char_digit; [reflexivity|]. apply Z.mod_pos_bound. lia.
Qed.

Lemma hotp_six_digits (key : list Z) (c : Z) :
  six_digits (Totp.hotp authenticator.options key c) = true.
Proof.
  unfold six_digits, Totp.hotp.
  change (Totp.digits authenticator.options) with 6%nat.
  match goal with
  | |- context [Totp.decimal 6 ?x ""] =>
      destruct (decimal_six_digits 6 x "") as [Hl Hd]
  end.
  rewrite Hl, Hd. reflexivity.
Qed.

(** * Properties of the handlers *)

(** Symbolic execution of a handler: unfold the monad and the services,
    then reduce what has become a constructor. *)
Ltac exec :=
  cbv beta iota delta
    [try_catch bind pure throw return_json log error users_list
     listDocuments updateDocument updatePassword sendMail first_or record
     set_world shorter_than_8 RegExp_test respond authenticator_verify
     authenticator_generate failure];
  cbn [world_of calls console accounts passwords documents outbox doc_id
       passwordResetSecret user_id user_email negb orb andb app truthy
       ToString converts short js_of_value observed_truthy observed_string
       observed_converts observed_short head fst snd destructure get
       property String.eqb Ascii.eqb Bool.eqb].

Lemma destructure_get (payload : json) (k : string) :
  payload <> JNull -> destructure payload k = pure (get payload k).
Proof. destruct payload; [congruence|reflexivity|reflexivity]. Qed.

(** The conversion of a string, [undefined] or [null] returns. *)
Lemma value_converts (v : value) : converts v = true.
Proof. now destruct v. Qed.

(** Execution up to the next test, read off a hypothesis. *)
Ltac run :=
  repeat (exec;
          first
            [ rewrite destructure_get by assumption
            | match goal with
              | H : ?l = _ |- context [?l] => rewrite H
              end ]);
  exec.

Lemma length_lt_8 (pw : string) :
  (String.length pw < 8)%nat -> (Z.of_nat (String.length pw) <? 8) = true.
Proof. intros H. apply Z.ltb_lt. lia. Qed.

Lemma length_ge_8 (pw : string) :
  (8 <= String.length pw)%nat -> (Z.of_nat (String.length pw) <? 8) = false.
Proof. intros H. apply Z.ltb_ge. lia. Qed.

Lemma long_nonempty (pw : string) :
  (8 <= String.length pw)%nat -> String.eqb pw "" = false.
Proof. destruct pw; cbn; [lia|reflexivity]. Qed.

Lemma six_digits_nonempty (otp : string) :
  six_digits otp = true -> String.eqb otp "" = false.
Proof. destruct otp; [discriminate|reflexivity]. Qed.

(** Enter a handler whose body parses to [payload]. *)
Ltac enter Hp :=
  unfold invoke, verify_otp, verify_otp_try, send_otp, send_otp_try, parse_body;
  rewrite Hp.


Section Properties.

Variable JSON_parse : string -> option json.

(** C8. Validation of a verification request whose body parses to a
    payload other than [null] is terminal and comes before any lookup: a
    missing or otherwise falsy email, code or new password returns the
    missing-field 400; otherwise a code whose text is not exactly six
    decimal digits returns the bad-format 400; a new password that is a
    string of fewer than eight characters returns a 400 whatever the text
    of the code is.  Each comes with no call to a collaborator and the
    world as it was. *)
Theorem validation_is_terminal (e : env) (req : request) (w : world)
    (email otp newPassword : jsvalue) :
  carries JSON_parse req email otp newPassword ->
  (truthy email = false \/ truthy otp = false \/ truthy newPassword = false ->
   invoke (verify_otp JSON_parse e req) w =
   (Returned (failure "Email, OTP, and new password are required" 400),
    State w [] [])) /\
  (truthy email = true -> truthy otp = true -> truthy newPassword = true ->
   converts otp = true -> six_digits (ToString otp) = false ->
   invoke (verify_otp JSON_parse e req) w =
   (Returned (failure "Invalid OTP format. OTP must be 6 digits." 400),
    State w [] [])) /\
  (forall pw, newPassword = JsString pw -> (String.length pw < 8)%nat ->
   converts otp = true ->
   exists msg,
     invoke (verify_otp JSON_parse e req) w =
       (Returned (failure msg 400), State w [] []) /\
     (truthy email = true -> truthy otp = true ->
      six_digits (ToString otp) = true -> pw <> "" ->
      msg = "Password must be at least 8 characters long")).
Proof.
  intros (payload & Hp & Hnn & He & Ho & Hn).
  split; [|split].
  - intros [H|[H|H]]; enter Hp; run; rewrite ?orb_true_r; reflexivity.
  - intros H1 H2 H3 Hc H4. rewrite <- otpRegex_six_digits in H4.
    enter Hp. run. reflexivity.
  - intros pw -> Hlen Hc. rewrite <- otpRegex_six_digits.
    apply length_lt_8 in Hlen.
    destruct (truthy email) eqn:H1;
      [|eexists; split; [enter Hp; run; reflexivity|discriminate]].
    destruct (truthy otp) eqn:H2;
      [|eexists; split; [enter Hp; run; reflexivity|discriminate]].
    destruct (String.eqb pw "") eqn:H3;
      [eexists; split; [enter Hp; run; reflexivity|]|].
    + apply String.eqb_eq in H3. intros _ _ _ H. now elim H.
    + destruct (Regex.test otpRegex (ToString otp)) eqn:Hre;
        eexists; (split; [enter Hp; run; reflexivity|]);
        [reflexivity|intros _ _ H; discriminate H].
Qed.

(** C10. An absent body is read as the empty object and gets the
    missing-field 400 of either handler; a body that [JSON.parse] rejects
    gets the generic 500 of the outer [catch]; neither calls a collaborator
    or changes the world. *)
Theorem body_absent_or_malformed (e : env) (w : world) :
  JSON_parse "{}" = Some (JObject []) ->
  (forall req, truthy (body req) = false ->
     invoke (verify_otp JSON_parse e req) w =
       (Returned (failure "Email, OTP, and new password are required" 400),
        State w [] []) /\
     invoke (send_otp JSON_parse e req) w =
       (Returned (failure "Email is required" 400), State w [] [])) /\
  (forall req, truthy (body req) = true ->
     JSON_parse (ToString (body req)) = None ->
     invoke (verify_otp JSON_parse e req) w =
       (Returned (failure "An unexpected error occurred. Please try again." 500),
        State w [] [Error "Unexpected error:" SyntaxError]) /\
     invoke (send_otp JSON_parse e req) w =
       (Returned (failure "An unexpected error occurred. Please try again." 500),
        State w [] [Error "Unexpected error:" SyntaxError])).
Proof.
  intros Hempty. split; intros req Hb.
  - assert (Hp : payload_of JSON_parse req = Some (JObject [])).
    { unfold payload_of, or_else. now rewrite Hb. }
    split; enter Hp; run; reflexivity.
  - intros Hbad.
    assert (Hp : payload_of JSON_parse req = None).
    { unfold payload_of, or_else. now rewrite Hb. }
    split; enter Hp; run; reflexivity.
Qed.

(** C9. An issuance request whose email matches no user of the directory
    returns the not-found failure (404) after the one lookup, and writes
    nothing: the world, the stored secrets with it, is as it was. *)
Theorem unknown_email_not_found (e : env) (req : request) (w : world)
    (email : string) :
  carries_email JSON_parse req (VString email) ->
  Regex.test emailRegex email = true ->
  users_list_throws e = false ->
  matching_users w email = [] ->
  invoke (send_otp JSON_parse e req) w =
  (Returned (failure "No account found with this email address" 404),
   State w [UsersList email] []).
Proof.
  intros (payload & Hp & Hnn & He) Hre Hul Hnone.
  assert (Hne : String.eqb email "" = false) by (destruct email; [discriminate|reflexivity]).
  enter Hp. run. reflexivity.
Qed.

(** The path of a matching code whose password update succeeds: the
    password is written, the secret is cleared unless that write throws,
    and the response is the success. *)
Lemma reset_succeeds (e : env) (req : request) (w : world)
    (email otp pw : string) (u : user) (secret : string) :
  carries JSON_parse req (VString email) (VString otp) (VString pw) ->
  well_formed email otp pw ->
  lookups_succeed e ->
  pending_reset w email u secret ->
  authenticator.verify (now e) otp secret = Some true ->
  updatePassword_throws e = false ->
  exists logs,
    invoke (verify_otp JSON_parse e req) w =
    (Returned reset_done,
     State (World (accounts w) (<[user_id u := pw]> (passwords w))
              (if updateDocument_throws e then documents w
               else <[user_id u := VNull]> (documents w))
              (outbox w))
       [UsersList email; ListDocuments (user_id u);
        UpdatePassword (user_id u) pw; UpdateDocument (user_id u) VNull]
       logs).
Proof.
  intros (payload & Hp & Hnn & He & Ho & Hn) (Hne & Hsix & Hlen)
         (Hul & Hld) (Hu & Hdoc & Hs) Hv Hup.
  apply String.eqb_neq in Hne, Hs.
  pose proof (six_digits_nonempty _ Hsix) as Hone.
  pose proof (long_nonempty _ Hlen) as Hpne.
  apply length_ge_8 in Hlen. rewrite <- otpRegex_six_digits in Hsix.
  enter Hp. run.
  destruct (updateDocument_throws e); run; eexists; reflexivity.
Qed.

(** C6. When the code matches and the password update succeeds the
    response is the success, whether the clearing write throws or not; the
    new password is in place either way. *)
Theorem success_despite_failed_clear (e : env) (req : request) (w : world)
    (email otp pw : string) (u : user) (secret : string) :
  carries JSON_parse req (VString email) (VString otp) (VString pw) ->
  well_formed email otp pw ->
  lookups_succeed e ->
  pending_reset w email u secret ->
  authenticator.verify (now e) otp secret = Some true ->
  updatePassword_throws e = false ->
  exists s,
    invoke (verify_otp JSON_parse e req) w = (Returned reset_done, s) /\
    passwords (world_of s) !! user_id u = Some pw /\
    (updateDocument_throws e = true -> documents (world_of s) = documents w).
Proof.
  intros Hc Hwf Hl Hpr Hv Hup.
  destruct (reset_succeeds e req w email otp pw u secret Hc Hwf Hl Hpr Hv Hup)
    as [logs Hrun].
  eexists. split; [exact Hrun|]. cbn [world_of passwords documents]. split.
  - apply lookup_insert_eq.
  - now intros ->.
Qed.

(** C5. When the code matches and the password update throws, the response
    is the 500 failure and the world, the stored secret with it, is as it
    was; the same request succeeds on a retry in the same window once the
    update goes through. *)
Theorem failed_update_keeps_secret (e : env) (req : request) (w : world)
    (email otp pw : string) (u : user) (secret : string) :
  carries JSON_parse req (VString email) (VString otp) (VString pw) ->
  well_formed email otp pw ->
  lookups_succeed e ->
  pending_reset w email u secret ->
  authenticator.verify (now e) otp secret = Some true ->
  updatePassword_throws e = true ->
  exists s,
    invoke (verify_otp JSON_parse e req) w =
      (Returned (failure "Failed to update password. Please try again." 500), s) /\
    world_of s = w /\
    documents (world_of s) !! user_id u = Some (VString secret) /\
    forall e',
      window_of (now e') = window_of (now e) ->
      lookups_succeed e' ->
      updatePassword_throws e' = false ->
      exists s',
        invoke (verify_otp JSON_parse e' req) (world_of s) = (Returned reset_done, s').
Proof.
  intros Hc Hwf Hl Hpr Hv Hup.
  assert (Hfail : exists logs,
    invoke (verify_otp JSON_parse e req) w =
    (Returned (failure "Failed to update password. Please try again." 500),
     State w [UsersList email; ListDocuments (user_id u);
              UpdatePassword (user_id u) pw] logs)).
  { destruct Hc as (payload & Hp & Hnn & He & Ho & Hn).
    destruct Hwf as (Hne & Hsix & Hlen). destruct Hl as (Hul & Hld).
    destruct Hpr as (Hu & Hdoc & Hs).
    apply String.eqb_neq in Hne, Hs.
    pose proof (six_digits_nonempty _ Hsix) as Hone.
    pose proof (long_nonempty _ Hlen) as Hpne.
    apply length_ge_8 in Hlen. rewrite <- otpRegex_six_digits in Hsix.
    enter Hp. run. eexists. reflexivity. }
  destruct Hfail as [logs Hrun].
  eexists. split; [exact Hrun|]. cbn [world_of]. split; [reflexivity|].
  split; [apply Hpr|].
  intros e' Hwin Hl' Hup'.
  rewrite <- (verify_same_window _ _ otp secret Hwin) in Hv.
  destruct (reset_succeeds e' req w email otp pw u secret Hc Hwf Hl' Hpr Hv Hup')
    as [logs' Hrun'].
  eexists. exact Hrun'.
Qed.

(** C7 fails: for the same request, a wrong code and a stored secret the
    engine cannot decode get two different messages. *)
Lemma mismatch_and_fault_differ :
  authenticator.verify 2226341399 "000000" Sample.secret = Some false /\
  fst (invoke (verify_otp Json.parse (Sample.calm 2226341399)
                 (Sample.verification "000000" "NewPass123"))
         (Sample.world_with (VString Sample.secret))) =
  Returned
    (failure "Invalid OTP or OTP has expired. Please request a new OTP." 400) /\
  authenticator.verify 2226341399 "000000" Sample.undecodable = None /\
  fst (invoke (verify_otp Json.parse (Sample.calm 2226341399)
                 (Sample.verification "000000" "NewPass123"))
         (Sample.world_with (VString Sample.undecodable))) =
  Returned (failure "Invalid OTP or OTP has expired" 400) /\
  failure "Invalid OTP or OTP has expired. Please request a new OTP." 400 <>
  failure "Invalid OTP or OTP has expired" 400.
Proof. vm_compute. repeat split. discriminate. Qed.

(** C7, amended. A code mismatch and an engine-level fault both return a
    failure with the same success flag and the same status 400, and leave
    the world as it was; the fault's message is "Invalid OTP or OTP has
    expired" and the mismatch's message is that text followed by
    ". Please request a new OTP.". *)
Theorem mismatch_and_fault_responses (e : env) (req : request) (w : world)
    (email otp pw : string) (u : user) (secret : string) :
  carries JSON_parse req (VString email) (VString otp) (VString pw) ->
  well_formed email otp pw ->
  lookups_succeed e ->
  pending_reset w email u secret ->
  (authenticator.verify (now e) otp secret = Some false ->
   invoke (verify_otp JSON_parse e req) w =
   (Returned
      (Response false
         ("Invalid OTP or OTP has expired" +:+ ". Please request a new OTP.")
         None (Some 400)),
    State w [UsersList email; ListDocuments (user_id u)] [])) /\
  (authenticator.verify (now e) otp secret = None ->
   invoke (verify_otp JSON_parse e req) w =
   (Returned (Response false "Invalid OTP or OTP has expired" None (Some 400)),
    State w [UsersList email; ListDocuments (user_id u)]
      [Error "Error verifying TOTP:" EngineError])).
Proof.
  intros (payload & Hp & Hnn & He & Ho & Hn) (Hne & Hsix & Hlen)
         (Hul & Hld) (Hu & Hdoc & Hs).
  apply String.eqb_neq in Hne, Hs.
  pose proof (six_digits_nonempty _ Hsix) as Hone.
  pose proof (long_nonempty _ Hlen) as Hpne.
  apply length_ge_8 in Hlen. rewrite <- otpRegex_six_digits in Hsix.
  split; intros Hv; enter Hp; run; reflexivity.
Qed.

(** C1 fails: the code matches and the password update succeeds, but the
    clearing write throws; the secret stays, and the next verification with
    the same code in the same window succeeds again. *)
Lemma failed_clear_allows_reuse :
  authenticator.verify (now Sample.clear_fails) "874294" Sample.secret = Some true /\
  fst (invoke (verify_otp Json.parse Sample.clear_fails Sample.confirm)
         Sample.pending) = Returned reset_done /\
  passwords
    (world_of (snd (invoke (verify_otp Json.parse Sample.clear_fails Sample.confirm)
                      Sample.pending))) !! "u1" = Some "NewPass123" /\
  documents
    (world_of (snd (invoke (verify_otp Json.parse Sample.clear_fails Sample.confirm)
                      Sample.pending))) !! "u1" = Some (VString Sample.secret) /\
  fst (invoke (verify_otp Json.parse (Sample.calm Sample.at_issue)
                 (Sample.verification "874294" "Another456"))
         (world_of (snd (invoke (verify_otp Json.parse Sample.clear_fails
                                   Sample.confirm) Sample.pending)))) =
  Returned reset_done.
Proof. vm_compute. repeat split. Qed.

(** C1, amended. When the code matches, the password update succeeds and
    the clearing write succeeds, the stored secret becomes null; from then
    on no verification request for that user with the same code succeeds or
    changes the world, whatever faults occur, and one that passes
    validation and whose lookups answer gets the 'no pending reset' 400. *)
Theorem cleared_secret_blocks_reuse (e : env) (req : request) (w : world)
    (email otp pw : string) (u : user) (secret : string) :
  carries JSON_parse req (VString email) (VString otp) (VString pw) ->
  well_formed email otp pw ->
  lookups_succeed e ->
  pending_reset w email u secret ->
  authenticator.verify (now e) otp secret = Some true ->
  updatePassword_throws e = false ->
  updateDocument_throws e = false ->
  exists s,
    invoke (verify_otp JSON_parse e req) w = (Returned reset_done, s) /\
    documents (world_of s) !! user_id u = Some VNull /\
    forall e' req' pw',
      carries JSON_parse req' (VString email) (VString otp) pw' ->
      (exists r s',
         invoke (verify_otp JSON_parse e' req') (world_of s) = (Returned r, s') /\
         success r = false /\ world_of s' = world_of s) /\
      (forall p, pw' = VString p -> (8 <= String.length p)%nat ->
         lookups_succeed e' ->
         invoke (verify_otp JSON_parse e' req') (world_of s) =
         (Returned (failure "No OTP request found. Please request a new OTP." 400),
          State (world_of s) [UsersList email; ListDocuments (user_id u)] [])).
Proof.
  intros Hc Hwf Hl Hpr Hv Hup Hud.
  destruct (reset_succeeds e req w email otp pw u secret Hc Hwf Hl Hpr Hv Hup)
    as [logs Hrun].
  rewrite Hud in Hrun.
  eexists. split; [exact Hrun|]. cbn [world_of documents].
  split; [apply lookup_insert_eq|].
  destruct Hwf as (Hne & Hsix & _). destruct Hpr as (Hu & _ & _).
  remember (World (accounts w) (<[user_id u:=pw]> (passwords w))
              (<[user_id u:=VNull]> (documents w)) (outbox w)) as w' eqn:Ew'.
  assert (Hu' : head (matching_users w' email) = Some u) by (now subst w').
  assert (Hdoc' : documents w' !! user_id u = Some VNull)
    by (subst w'; apply lookup_insert_eq).
  clear Ew' Hrun.
  apply String.eqb_neq in Hne.
  pose proof (six_digits_nonempty _ Hsix) as Hone.
  rewrite <- otpRegex_six_digits in Hsix.
  intros e' req' pw' (payload & Hp & Hnn & He & Ho & Hn). split.
  - destruct (truthy pw') eqn:Hp0;
      [|enter Hp; run; eexists _, _; repeat split].
    destruct (short pw') as [[|]|] eqn:Hlt;
      [enter Hp; run; eexists _, _; repeat split|
      |enter Hp; run; eexists _, _; repeat split].
    destruct (users_list_throws e') eqn:Hul;
      [enter Hp; run; eexists _, _; repeat split|].
    destruct (listDocuments_throws e') eqn:Hld;
      enter Hp; run; eexists _, _; repeat split.
  - intros p -> Hlen (Hul & Hld).
    pose proof (long_nonempty _ Hlen) as Hpne. apply length_ge_8 in Hlen.
    enter Hp. run. reflexivity.
Qed.



End Properties.

(** * The statements on the sample data *)

(** Facts about closed terms, by evaluation. *)
Ltac evaluate :=
  lazymatch goal with
  | |- carries _ _ _ _ _ =>
      eexists; repeat apply conj; [vm_compute; reflexivity|discriminate|..];
      reflexivity
  | |- carries_email _ _ _ =>
      eexists; repeat apply conj; [vm_compute; reflexivity|discriminate|..];
      reflexivity
  | |- well_formed _ _ _ =>
      repeat apply conj; [discriminate|reflexivity|cbn; lia]
  | |- lookups_succeed _ => split; reflexivity
  | |- pending_reset _ _ _ _ =>
      repeat apply conj; [reflexivity|vm_compute; reflexivity|discriminate]
  | |- _ = _ => vm_compute; reflexivity
  end.

Lemma success_despite_failed_clear_witness :
  updateDocument_throws Sample.clear_fails = true /\
  exists s,
    invoke (verify_otp Json.parse Sample.clear_fails Sample.confirm) Sample.pending =
      (Returned reset_done, s) /\
    passwords (world_of s) !! user_id Sample.u1 = Some "NewPass123" /\
    (updateDocument_throws Sample.clear_fails = true ->
     documents (world_of s) = documents Sample.pending).
Proof.
  split; [reflexivity|].
  apply (success_despite_failed_clear Json.parse Sample.clear_fails
           Sample.confirm Sample.pending
           Sample.email "874294" "NewPass123" Sample.u1 Sample.secret);
    evaluate.
Defined.

Lemma failed_update_keeps_secret_witness :
  authenticator.verify (now Sample.update_fails) "874294" Sample.secret = Some true /\
  updatePassword_throws Sample.update_fails = true /\
  exists s,
    invoke (verify_otp Json.parse Sample.update_fails Sample.confirm) Sample.pending =
      (Returned (failure "Failed to update password. Please try again." 500), s) /\
    world_of s = Sample.pending /\
    documents (world_of s) !! user_id Sample.u1 = Some (VString Sample.secret) /\
    forall e',
      window_of (now e') = window_of (now Sample.update_fails) ->
      lookups_succeed e' ->
      updatePassword_throws e' = false ->
      exists s',
        invoke (verify_otp Json.parse e' Sample.confirm) (world_of s) =
          (Returned reset_done, s').
Proof.
  split; [evaluate|]. split; [reflexivity|].
  apply (failed_update_keeps_secret Json.parse Sample.update_fails
           Sample.confirm Sample.pending
           Sample.email "874294" "NewPass123" Sample.u1 Sample.secret);
    evaluate.
Defined.

Lemma cleared_secret_blocks_reuse_witness :
  authenticator.verify Sample.at_issue "874294" Sample.secret = Some true /\
  exists s,
    invoke (verify_otp Json.parse (Sample.calm Sample.at_issue) Sample.confirm)
      Sample.pending = (Returned reset_done, s) /\
    documents (world_of s) !! user_id Sample.u1 = Some VNull /\
    forall e' req' pw',
      carries Json.parse req' (VString Sample.email) (VString "874294") pw' ->
      (exists r s',
         invoke (verify_otp Json.parse e' req') (world_of s) = (Returned r, s') /\
         success r = false /\ world_of s' = world_of s) /\
      (forall p, pw' = VString p -> (8 <= String.length p)%nat ->
         lookups_succeed e' ->
         invoke (verify_otp Json.parse e' req') (world_of s) =
         (Returned (failure "No OTP request found. Please request a new OTP." 400),
          State (world_of s)
            [UsersList Sample.email; ListDocuments (user_id Sample.u1)] [])).
Proof.
  split; [evaluate|].
  apply (cleared_secret_blocks_reuse Json.parse (Sample.calm Sample.at_issue)
           Sample.confirm Sample.pending
           Sample.email "874294" "NewPass123" Sample.u1 Sample.secret);
    evaluate.
Defined.

Lemma mismatch_and_fault_responses_witness :
  authenticator.verify Sample.at_issue "000000" Sample.secret = Some false /\
  invoke (verify_otp Json.parse (Sample.calm Sample.at_issue)
            (Sample.verification "000000" "NewPass123")) Sample.pending =
  (Returned
     (Response false
        ("Invalid OTP or OTP has expired" +:+ ". Please request a new OTP.")
        None (Some 400)),
   State Sample.pending
     [UsersList Sample.email; ListDocuments (user_id Sample.u1)] []).
Proof.
  assert (Hv : authenticator.verify (now (Sample.calm Sample.at_issue)) "000000"
                 Sample.secret = Some false) by evaluate.
  split; [exact Hv|].
  apply (mismatch_and_fault_responses Json.parse (Sample.calm Sample.at_issue)
           (Sample.verification "000000" "NewPass123") Sample.pending
           Sample.email "000000" "NewPass123" Sample.u1 Sample.secret);
    [evaluate..|exact Hv].
Defined.


Lemma unknown_email_not_found_witness :
  matching_users Sample.pending "nobody@example.com" = [] /\
  invoke (send_otp Json.parse (Sample.calm Sample.at_issue)
            (Sample.issuance "nobody@example.com")) Sample.pending =
  (Returned (failure "No account found with this email address" 404),
   State Sample.pending [UsersList "nobody@example.com"] []).
Proof.
  split; [reflexivity|].
  apply (unknown_email_not_found Json.parse (Sample.calm Sample.at_issue)
           (Sample.issuance "nobody@example.com") Sample.pending
           "nobody@example.com");
    evaluate.
Defined.

Lemma body_absent_or_malformed_witness :
  Json.parse "{}" = Some (JObject []) /\
  invoke (verify_otp Json.parse (Sample.calm Sample.at_issue) (Request VUndefined))
    Sample.pending =
    (Returned (failure "Email, OTP, and new password are required" 400),
     State Sample.pending [] []) /\
  invoke (send_otp Json.parse (Sample.calm Sample.at_issue) (Request (VString "")))
    Sample.pending =
    (Returned (failure "Email is required" 400), State Sample.pending [] []) /\
  Json.parse "{email:" = None /\
  invoke (verify_otp Json.parse (Sample.calm Sample.at_issue)
            (Request (VString "{email:"))) Sample.pending =
    (Returned (failure "An unexpected error occurred. Please try again." 500),
     State Sample.pending [] [Error "Unexpected error:" SyntaxError]) /\
  invoke (send_otp Json.parse (Sample.calm Sample.at_issue)
            (Request (VString "{email:"))) Sample.pending =
    (Returned (failure "An unexpected error occurred. Please try again." 500),
     State Sample.pending [] [Error "Unexpected error:" SyntaxError]).
Proof.
  destruct (body_absent_or_malformed Json.parse (Sample.calm Sample.at_issue)
              Sample.pending eq_refl) as [Habsent Hbad].
  split; [reflexivity|].
  split; [apply (Habsent (Request VUndefined)); reflexivity|].
  split; [apply (Habsent (Request (VString ""))); reflexivity|].
  split; [reflexivity|].
  split; apply (Hbad (Request (VString "{email:"))); reflexivity.
Defined.

Lemma validation_is_terminal_witness :
  invoke (verify_otp Json.parse (Sample.calm Sample.at_issue)
            (Sample.issuance Sample.email)) Sample.pending =
    (Returned (failure "Email, OTP, and new password are required" 400),
     State Sample.pending [] []) /\
  invoke (verify_otp Json.parse (Sample.calm Sample.at_issue)
            (Sample.verification "12a456" "NewPass123")) Sample.pending =
    (Returned (failure "Invalid OTP format. OTP must be 6 digits." 400),
     State Sample.pending [] []) /\
  invoke (verify_otp Json.parse (Sample.calm Sample.at_issue)
            (Sample.verification "12345" "NewPass123")) Sample.pending =
    (Returned (failure "Invalid OTP format. OTP must be 6 digits." 400),
     State Sample.pending [] []) /\
  invoke (verify_otp Json.parse (Sample.calm Sample.at_issue)
            (Sample.verification "874294" "short1")) Sample.pending =
    (Returned (failure "Password must be at least 8 characters long" 400),
     State Sample.pending [] []).
Proof.
  repeat apply conj.
  - destruct (validation_is_terminal Json.parse (Sample.calm Sample.at_issue)
               (Sample.issuance Sample.email) Sample.pending
               (VString Sample.email) VUndefined VUndefined ltac:(evaluate))
      as (Hmissing & _ & _).
    apply Hmissing. right. left. reflexivity.
  - destruct (validation_is_terminal Json.parse (Sample.calm Sample.at_issue)
               (Sample.verification "12a456" "NewPass123") Sample.pending
               (VString Sample.email) (VString "12a456") (VString "NewPass123")
               ltac:(evaluate))
      as (_ & Hformat & _).
    apply Hformat; reflexivity.
  - destruct (validation_is_terminal Json.parse (Sample.calm Sample.at_issue)
               (Sample.verification "12345" "NewPass123") Sample.pending
               (VString Sample.email) (VString "12345") (VString "NewPass123")
               ltac:(evaluate))
      as (_ & Hformat & _).
    apply Hformat; reflexivity.
  - destruct (validation_is_terminal Json.parse (Sample.calm Sample.at_issue)
               (Sample.verification "874294" "short1") Sample.pending
               (VString Sample.email) (VString "874294") (VString "short1")
               ltac:(evaluate))
      as (_ & _ & Hshort).
    destruct (Hshort "short1" eq_refl ltac:(cbn; lia) eq_refl)
      as (msg & Hrun & Hmsg).
    rewrite Hrun, (Hmsg eq_refl eq_refl eq_refl ltac:(discriminate)).
    reflexivity.
Defined.

(** C8 fails outside these bounds.  A body that is [null] has none of
    the three fields and gets the generic 500, not the missing-field 400.
    A new password that is the number [1] is not tested for its length:
    the request goes on to the lookups and the password update.  A code
    that has no text makes the pattern test throw: the short new password
    next to it gets the generic 500, not a 400. *)
Lemma validation_gaps :
  invoke (verify_otp Json.parse (Sample.calm Sample.at_issue)
            (Request (VString "null"))) Sample.pending =
    (Returned (failure "An unexpected error occurred. Please try again." 500),
     State Sample.pending [] [Error "Unexpected error:" TypeError]) /\
  fst (invoke (verify_otp Json.parse (Sample.calm Sample.at_issue)
                 Sample.numeric_password) Sample.pending) =
    Returned reset_done /\
  calls (snd (invoke (verify_otp Json.parse (Sample.calm Sample.at_issue)
                        Sample.numeric_password) Sample.pending)) =
    [UsersList Sample.email; ListDocuments "u1"; UpdatePassword "u1" "1";
     UpdateDocument "u1" VNull] /\
  invoke (verify_otp Json.parse (Sample.calm Sample.at_issue)
            Sample.unprintable_code) Sample.pending =
    (Returned (failure "An unexpected error occurred. Please try again." 500),
     State Sample.pending [] [Error "Unexpected error:" TypeError]).
Proof. vm_compute. repeat split. Qed.

(** * Further properties: the patterns *)

Lemma append_empty (s1 s2 : string) :
  s1 +:+ s2 = "" -> s1 = "" /\ s2 = "".
Proof. destruct s1; [auto|discriminate]. Qed.

Lemma lang_nullable (r : Regex.re) (s : string) :
  Regex.lang r s -> s = "" -> Regex.nullable r = true.
Proof.
  induction 1 as [|p c Hp|r1 r2 s1 s2 _ IH1 _ IH2|r1 r2 s _ IH|r1 r2 s _ IH
                 |r|r s1 s2 _ _ _ _]; intros E; cbn [Regex.nullable];
    try reflexivity; try discriminate.
  - apply append_empty in E as [-> ->]. now rewrite IH1, IH2.
  - now rewrite IH.
  - rewrite IH by assumption. apply orb_true_r.
Qed.

Lemma nullable_lang (r : Regex.re) :
  Regex.nullable r = true -> Regex.lang r "".
Proof.
  induction r as [| |p|r1 IH1 r2 IH2|r1 IH1 r2 IH2|r IH];
    cbn [Regex.nullable]; intros H; try discriminate.
  - constructor.
  - apply andb_true_iff in H as [H1 H2].
    exact (Regex.lang_Cat r1 r2 "" "" (IH1 H1) (IH2 H2)).
  - apply orb_true_iff in H as [H|H];
      [apply Regex.lang_Alt_l|apply Regex.lang_Alt_r]; auto.
  - constructor.
Qed.

(** A non-empty word of [r*] starts with a non-empty word of [r]. *)
Lemma lang_Star_cons_inv (r : Regex.re) (c : ascii) (s : string) :
  Regex.lang (Regex.Star r) (String c s) ->
  exists s1 s2,
    s = s1 +:+ s2 /\ Regex.lang r (String c s1) /\ Regex.lang (Regex.Star r) s2.
Proof.
  intros H.
  remember (Regex.Star r) as R eqn:ER. remember (String c s) as t eqn:Et.
  revert s Et.
  induction H as [|p c' Hp|r1 r2 s1 s2 _ _ _ _|r1 r2 s0 _ _|r1 r2 s0 _ _
                 |r0|r0 s1 s2 H1 _ H2 IH2]; intros s Et; try discriminate.
  injection ER as ->.
  destruct s1 as [|c1 s1].
  - apply IH2; [reflexivity|exact Et].
  - cbn in Et. injection Et as -> <-. exists s1, s2. auto.
Qed.

Lemma lang_Cat_inv (r1 r2 : Regex.re) (t : string) :
  Regex.lang (Regex.Cat r1 r2) t ->
  exists s1 s2, t = s1 +:+ s2 /\ Regex.lang r1 s1 /\ Regex.lang r2 s2.
Proof. intros H. inversion H; subst. eauto. Qed.

Lemma lang_Alt_inv (r1 r2 : Regex.re) (t : string) :
  Regex.lang (Regex.Alt r1 r2) t -> Regex.lang r1 t \/ Regex.lang r2 t.
Proof. intros H. inversion H; subst; auto. Qed.

Lemma lang_Class_inv (p : ascii -> bool) (t : string) :
  Regex.lang (Regex.Class p) t -> exists c, t = String c "" /\ p c = true.
Proof. intros H. inversion H; subst. eauto. Qed.

Lemma lang_Eps_inv (t : string) : Regex.lang Regex.Eps t -> t = "".
Proof. intros H. now inversion H. Qed.

Lemma lang_Void_inv (t : string) : ~ Regex.lang Regex.Void t.
Proof. intros H. inversion H. Qed.

Lemma deriv_lang (c : ascii) (r : Regex.re) : forall s,
  Regex.lang (Regex.deriv c r) s <-> Regex.lang r (String c s).
Proof.
  induction r as [| |p|r1 IH1 r2 IH2|r1 IH1 r2 IH2|r IH]; intros s;
    cbn [Regex.deriv].
  - split; intros H; [now apply lang_Void_inv in H|now apply lang_Void_inv in H].
  - split; intros H; [now apply lang_Void_inv in H|].
    apply lang_Eps_inv in H. discriminate.
  - destruct (p c) eqn:Hp; split; intros H.
    + apply lang_Eps_inv in H. subst s. now constructor.
    + apply lang_Class_inv in H as (c' & [= <- ->] & _). constructor.
    + now apply lang_Void_inv in H.
    + apply lang_Class_inv in H as (c' & [= <- ->] & Hc). congruence.
  - assert (Hleft : forall t, Regex.lang (Regex.Cat (Regex.deriv c r1) r2) t ->
                              Regex.lang (Regex.Cat r1 r2) (String c t)).
    { intros t H. apply lang_Cat_inv in H as (s1 & s2 & -> & H1 & H2).
      apply IH1 in H1.
      exact (Regex.lang_Cat r1 r2 (String c s1) s2 H1 H2). }
    assert (Hsplit : Regex.lang (Regex.Cat r1 r2) (String c s) ->
              (exists s1 s2, s = s1 +:+ s2 /\ Regex.lang r1 (String c s1) /\
                             Regex.lang r2 s2) \/
              (Regex.lang r1 "" /\ Regex.lang r2 (String c s))).
    { intros H. apply lang_Cat_inv in H as (s1 & s2 & E & H1 & H2).
      destruct s1 as [|c1 s1].
      - right. change ("" +:+ s2) with s2 in E. subst s2. auto.
      - left. change (String c1 s1 +:+ s2) with (String c1 (s1 +:+ s2)) in E.
        injection E as <- ->. exists s1, s2. auto. }
    destruct (Regex.nullable r1) eqn:Hn; split; intros H.
    + apply lang_Alt_inv in H as [H|H]; [now apply Hleft|].
      apply IH2 in H.
      exact (Regex.lang_Cat r1 r2 "" (String c s) (nullable_lang r1 Hn) H).
    + destruct (Hsplit H) as [(s1 & s2 & -> & H1 & H2)|[H1 H2]].
      * apply Regex.lang_Alt_l. constructor; [now apply IH1|assumption].
      * apply Regex.lang_Alt_r. now apply IH2.
    + now apply Hleft.
    + destruct (Hsplit H) as [(s1 & s2 & -> & H1 & H2)|[H1 H2]].
      * constructor; [now apply IH1|assumption].
      * pose proof (lang_nullable r1 "" H1 eq_refl) as Hn'. congruence.
  - split; intros H; apply lang_Alt_inv in H as [H|H];
      [apply Regex.lang_Alt_l; now apply IH1
      |apply Regex.lang_Alt_r; now apply IH2
      |apply Regex.lang_Alt_l; now apply IH1
      |apply Regex.lang_Alt_r; now apply IH2].
  - split; intros H.
    + apply lang_Cat_inv in H as (s1 & s2 & -> & H1 & H2).
      apply IH in H1.
      exact (Regex.lang_Star_cons r (String c s1) s2 H1 H2).
    + destruct (lang_Star_cons_inv r c s H) as (s1 & s2 & -> & H1 & H2).
      constructor; [now apply IH|assumption].
Qed.

(** The matcher decides the language of the pattern. *)
Lemma test_lang (s : string) : forall r,
  Regex.test r s = true <-> Regex.lang r s.
Proof.
  induction s as [|c s IH]; intros r; cbn [Regex.test].
  - split; [apply nullable_lang|intros H; now apply (lang_nullable r "")].
  - rewrite IH. apply deriv_lang.
Qed.

Lemma lang_Star_Class (p : ascii -> bool) (s : string) :
  Regex.lang (Regex.Star (Regex.Class p)) s <->
  forallb p (String.list_ascii_of_string s) = true.
Proof.
  split.
  - intros H. remember (Regex.Star (Regex.Class p)) as R eqn:ER.
    induction H as [|p' c Hp|r1 r2 s1 s2 _ _ _ _|r1 r2 s0 _ _|r1 r2 s0 _ _
                   |r0|r0 s1 s2 H1 _ H2 IH2]; try discriminate.
    + reflexivity.
    + injection ER as ->.
      apply lang_Class_inv in H1 as (c & -> & Hc).
      change (String c "" +:+ s2) with (String c s2).
      cbn [String.list_ascii_of_string forallb]. rewrite Hc. now apply IH2.
  - induction s as [|c s IH]; cbn [String.list_ascii_of_string forallb].
    + constructor.
    + intros H. apply andb_true_iff in H as [Hc Hs].
      exact (Regex.lang_Star_cons (Regex.Class p) (String c "") s
               (Regex.lang_Class p c Hc) (IH Hs)).
Qed.

Lemma lang_plus_Class (p : ascii -> bool) (s : string) :
  Regex.lang (Regex.plus (Regex.Class p)) s <->
  s <> "" /\ forallb p (String.list_ascii_of_string s) = true.
Proof.
  unfold Regex.plus. split.
  - intros H. apply lang_Cat_inv in H as (s1 & s2 & -> & H1 & H2).
    apply lang_Class_inv in H1 as (c & -> & Hc).
    apply lang_Star_Class in H2.
    change (String c "" +:+ s2) with (String c s2).
    split; [discriminate|].
    cbn [String.list_ascii_of_string forallb]. now rewrite Hc.
  - intros [Hne H]. destruct s as [|c s]; [congruence|].
    cbn [String.list_ascii_of_string forallb] in H.
    apply andb_true_iff in H as [Hc Hs].
    exact (Regex.lang_Cat (Regex.Class p) (Regex.Star (Regex.Class p))
             (String c "") s (Regex.lang_Class p c Hc)
             (proj2 (lang_Star_Class p s) Hs)).
Qed.

Lemma char_eq (x c : ascii) : Regex.char x c = true <-> c = x.
Proof.
  unfold Regex.char, Regex.code. rewrite Z.eqb_eq. split; [|now intros ->].
  intros H. apply N2Z.inj in H.
  rewrite <- (Ascii.ascii_N_embedding c), <- (Ascii.ascii_N_embedding x).
  now rewrite H.
Qed.

(** X1. [/^\d{6}$/] (verify_otp/index.js:45) accepts a string exactly when
    it has six characters, all of them ASCII digits. *)
Theorem otp_pattern_exact (s : string) :
  Regex.test otpRegex s = true <->
  String.length s = 6%nat /\
  Forall (fun c => 48 <= Regex.code c <= 57) (String.list_ascii_of_string s).
Proof.
  rewrite otpRegex_six_digits. unfold six_digits.
  rewrite andb_true_iff, Nat.eqb_eq, forallb_forall, List.Forall_forall.
  split; intros [Hl Hd]; (split; [exact Hl|]); intros c Hc;
    specialize (Hd c Hc); unfold Regex.digit in *.
  - apply andb_true_iff in Hd as [H1 H2].
    apply Z.leb_le in H1, H2. lia.
  - apply andb_true_iff. split; apply Z.leb_le; lia.
Qed.

(** X2. [/^[^\s@]+@[^\s@]+\.[^\s@]+$/] (send_otp/index.js:54) accepts a
    string exactly when it reads [a@b.c] with [a], [b] and [c] non-empty and
    free of white space and of [@]. *)
Theorem email_pattern_shape (s : string) :
  Regex.test emailRegex s = true <->
  exists a b c,
    s = a +:+ "@" +:+ b +:+ "." +:+ c /\ plain a /\ plain b /\ plain c.
Proof.
  rewrite test_lang. unfold emailRegex, plain. split.
  - intros H.
    apply lang_Cat_inv in H as (a & t1 & -> & Ha & H).
    apply lang_Cat_inv in H as (x & t2 & -> & Hx & H).
    apply lang_Cat_inv in H as (b & t3 & -> & Hb & H).
    apply lang_Cat_inv in H as (y & c & -> & Hy & Hc).
    apply lang_Class_inv in Hx as (cx & -> & Hx). apply char_eq in Hx. subst cx.
    apply lang_Class_inv in Hy as (cy & -> & Hy). apply char_eq in Hy. subst cy.
    apply lang_plus_Class in Ha, Hb, Hc.
    exists a, b, c. auto.
  - intros (a & b & c & -> & Ha & Hb & Hc).
    apply lang_plus_Class in Ha, Hb, Hc.
    constructor; [exact Ha|].
    apply (Regex.lang_Cat _ _ "@" (b +:+ "." +:+ c));
      [constructor; now apply char_eq|].
    constructor; [exact Hb|].
    apply (Regex.lang_Cat _ _ "." c); [constructor; now apply char_eq|exact Hc].
Qed.

(** * Further properties: the handlers on every request *)

(** The end of a failing path of the verification handler. *)
Ltac verify_fails Hp :=
  eexists _, _; split; [enter Hp; run; reflexivity|]; left;
  cbn [success status expiresInMinutes world_of calls];
  repeat apply conj;
  [ reflexivity | reflexivity | auto | reflexivity
  | intros id v Hin; cbn [In] in Hin; intuition discriminate
  | intros m Hin; cbn [In] in Hin; intuition discriminate ].

Section Coverage.

Variable JSON_parse : string -> option json.

(** Every run of the verification handler: either a failure that leaves
    the world as it was, or the success, reached on one path only. *)
Lemma verify_otp_outcome (e : env) (req : request) (w : world) :
  exists r s,
    invoke (verify_otp JSON_parse e req) w = (Returned r, s) /\
    ((success r = false /\ expiresInMinutes r = None /\
      (status r = Some 400 \/ status r = Some 404 \/ status r = Some 500) /\
      world_of s = w /\
      (forall id v, ~ In (UpdateDocument id v) (calls s)) /\
      (forall m, ~ In (SendMail m) (calls s))) \/
     (r = reset_done /\
      exists email otp pw u secret,
        carries JSON_parse req email otp pw /\
        validated email otp pw /\
        lookups_succeed e /\
        pending_reset w (ToString email) u secret /\
        authenticator.verify (now e) (ToString otp) secret = Some true /\
        updatePassword_throws e = false /\
        world_of s =
          World (accounts w) (<[user_id u := ToString pw]> (passwords w))
            (if updateDocument_throws e then documents w
             else <[user_id u := VNull]> (documents w))
            (outbox w) /\
        calls s = [UsersList (ToString email); ListDocuments (user_id u);
                   UpdatePassword (user_id u) (ToString pw);
                   UpdateDocument (user_id u) VNull])).
Proof.
  destruct (payload_of JSON_parse req) as [[| |props]|] eqn:Hp;
    [verify_fails Hp|verify_fails Hp| |verify_fails Hp].
  remember (property "email" props) as em eqn:He.
  remember (property "otp" props) as o eqn:Ho.
  remember (property "newPassword" props) as p eqn:Hn.
  symmetry in He, Ho, Hn.
  destruct (truthy em) eqn:Hem; [|verify_fails Hp].
  destruct (truthy o) eqn:Hoe; [|verify_fails Hp].
  destruct (truthy p) eqn:Hpe; [|verify_fails Hp].
  destruct (converts o) eqn:Hco; [|verify_fails Hp].
  destruct (Regex.test otpRegex (ToString o)) eqn:Hre; [|verify_fails Hp].
  destruct (short p) as [[|]|] eqn:Hlen;
    [verify_fails Hp| |verify_fails Hp].
  destruct (users_list_throws e) eqn:Hul; [verify_fails Hp|].
  destruct (head (matching_users w (ToString em))) as [u|] eqn:Hu;
    [|verify_fails Hp].
  destruct (listDocuments_throws e) eqn:Hld; [verify_fails Hp|].
  destruct (documents w !! user_id u) as [[| |sec]|] eqn:Hdoc;
    [verify_fails Hp|verify_fails Hp| |verify_fails Hp].
  destruct (String.eqb sec "") eqn:Hsec; [verify_fails Hp|].
  destruct (authenticator.verify (now e) (ToString o) sec) as [[|]|] eqn:Hv;
    [|verify_fails Hp|verify_fails Hp].
  destruct (updatePassword_throws e) eqn:Hup; [verify_fails Hp|].
  assert (Hdone : exists r s,
    invoke (verify_otp JSON_parse e req) w = (Returned r, s) /\
    r = reset_done /\
    world_of s =
      World (accounts w) (<[user_id u := ToString p]> (passwords w))
        (if updateDocument_throws e then documents w
         else <[user_id u := VNull]> (documents w)) (outbox w) /\
    calls s = [UsersList (ToString em); ListDocuments (user_id u);
               UpdatePassword (user_id u) (ToString p);
               UpdateDocument (user_id u) VNull]).
  { destruct (updateDocument_throws e) eqn:Hud;
      (eexists _, _; split; [enter Hp; run; reflexivity|]); repeat split. }
  destruct Hdone as (r & s & Hrun & -> & Hw & Hcalls).
  exists reset_done, s. split; [exact Hrun|]. right. split; [reflexivity|].
  exists em, o, p, u, sec.
  rewrite otpRegex_six_digits in Hre. apply String.eqb_neq in Hsec.
  unfold validated, lookups_succeed, pending_reset.
  repeat apply conj; try assumption; try reflexivity.
  exists (JObject props).
  repeat apply conj; [exact Hp|discriminate|exact He|exact Ho|exact Hn].
Qed.

End Coverage.

(** Execution to the end: reduce, or read the next test off a hypothesis,
    as long as either applies. *)
Ltac run_all :=
  repeat first
    [ progress exec
    | rewrite destructure_get by assumption
    | match goal with
      | H : ?l = _ |- context [?l] => rewrite H
      end ].

(** What a run of the issuance handler shows, whatever the path. *)
Ltac issuance_frame :=
  cbn [success status expiresInMinutes world_of calls accounts passwords
       documents outbox];
  repeat apply conj;
  [ reflexivity | reflexivity
  | intros id pw Hin; cbn [In] in Hin; intuition discriminate
  | intros id v' Hin; cbn [In] in Hin;
    repeat (destruct Hin as [Hin|Hin]; [try discriminate Hin; eauto|]);
    destruct Hin
  | | ].

(** The end of a path of the issuance handler that fails before any write. *)
Ltac issuance_fails Hp :=
  eexists _, _; split; [enter Hp; run_all; reflexivity|];
  issuance_frame;
  [ left; reflexivity
  | left; repeat apply conj; [reflexivity|reflexivity|auto|reflexivity] ].

(** A derived code verifies at the time it was derived, and has the
    format the verification handler asks for. *)
Lemma generate_verify (T : Z) (secret code : string) :
  authenticator.generate T secret = Some code ->
  authenticator.verify T code secret = Some true /\ six_digits code = true.
Proof.
  unfold authenticator.generate, authenticator.verify.
  rewrite derive_strict, matches_strict.
  destruct (Totp.keyDecoder secret) as [key|]; [|discriminate].
  intros H. assert (E : code = Totp.hotp authenticator.options key (window_of T))
    by congruence.
  rewrite E, String.eqb_refl. split; [reflexivity|apply hotp_six_digits].
Qed.

Lemma email_nonempty (email : string) :
  Regex.test emailRegex email = true -> email <> "".
Proof. intros H ->. discriminate H. Qed.

Section Outcomes.
Variable JSON_parse : string -> option json.

Lemma send_otp_outcome (e : env) (req : request) (w : world) :
  exists r s,
    invoke (send_otp JSON_parse e req) w = (Returned r, s) /\
    accounts (world_of s) = accounts w /\
    passwords (world_of s) = passwords w /\
    (forall id pw, ~ In (UpdatePassword id pw) (calls s)) /\
    (forall id v', In (UpdateDocument id v') (calls s) ->
       v' = VString (generateSecret e) /\
       exists v : value, documents w !! id = Some v /\ truthy v = false) /\
    (documents (world_of s) = documents w \/
     (exists email u (v : value),
        carries_email JSON_parse req email /\
        head (matching_users w (ToString email)) = Some u /\
        documents w !! user_id u = Some v /\ truthy v = false /\
        updateDocument_throws e = false /\
        documents (world_of s) =
          <[user_id u := VString (generateSecret e)]> (documents w))) /\
    ((success r = false /\ expiresInMinutes r = None /\
      (status r = Some 400 \/ status r = Some 404 \/ status r = Some 500) /\
      outbox (world_of s) = outbox w) \/
     (exists email u secret code,
        r = Response true
              ("OTP sent to " +:+ ToString email +:+ ". Please check your inbox.")
              (Some OTP_EXPIRY_MINUTES) None /\
        carries_email JSON_parse req email /\
        Regex.test emailRegex (ToString email) = true /\
        lookups_succeed e /\
        head (matching_users w (ToString email)) = Some u /\
        documents (world_of s) !! user_id u = Some (VString secret) /\
        secret <> "" /\
        authenticator.generate (now e) secret = Some code /\
        sendMail_throws e = false /\
        outbox (world_of s) =
          (outbox w ++ [Mail (ToString email) code OTP_EXPIRY_MINUTES])%list)).
Proof.
  destruct (payload_of JSON_parse req) as [[| |props]|] eqn:Hp;
    [issuance_fails Hp|issuance_fails Hp| |issuance_fails Hp].
  remember (property "email" props) as em eqn:He. symmetry in He.
  destruct (truthy em) eqn:Hem; [|issuance_fails Hp].
  destruct (converts em) eqn:Hco; [|issuance_fails Hp].
  destruct (Regex.test emailRegex (ToString em)) eqn:Hre; [|issuance_fails Hp].
  destruct (users_list_throws e) eqn:Hul; [issuance_fails Hp|].
  destruct (head (matching_users w (ToString em))) as [u|] eqn:Hu;
    [|issuance_fails Hp].
  destruct (listDocuments_throws e) eqn:Hld; [issuance_fails Hp|].
  destruct (documents w !! user_id u) as [v|] eqn:Hdoc; [|issuance_fails Hp].
  assert (Hc : carries_email JSON_parse req em).
  { exists (JObject props). repeat apply conj; [exact Hp|discriminate|exact He]. }
  destruct (truthy v) eqn:Htv.
  - destruct v as [| |sec]; try discriminate Htv.
    cbn [truthy js_of_value] in Htv. apply negb_true_iff in Htv.
    destruct (authenticator.generate (now e) sec) as [code|] eqn:Hgen;
      [|issuance_fails Hp].
    destruct (sendMail_throws e) eqn:Hsm; [issuance_fails Hp|].
    eexists _, _; split; [enter Hp; run_all; reflexivity|].
    issuance_frame; [left; reflexivity|].
    right. exists em, u, sec, code. repeat apply conj; auto.
    now apply String.eqb_neq.
  - assert (Hwritten : forall id v', UpdateDocument (user_id u) (VString (generateSecret e)) = UpdateDocument id v' ->
              v' = VString (generateSecret e) /\
              exists v0 : value, documents w !! id = Some v0 /\ truthy v0 = false).
    { intros id v' [= <- <-]. eauto. }
    destruct (updateDocument_throws e) eqn:Hud.
    { eexists _, _; split; [enter Hp; run_all; reflexivity|].
      issuance_frame; [left; reflexivity|].
      left; repeat apply conj; [reflexivity|reflexivity|auto|reflexivity]. }
    assert (Hnew : exists email u0 (v0 : value),
      carries_email JSON_parse req email /\
      head (matching_users w (ToString email)) = Some u0 /\
      documents w !! user_id u0 = Some v0 /\ truthy v0 = false /\
      false = false /\
      <[user_id u := VString (generateSecret e)]> (documents w) =
      <[user_id u0 := VString (generateSecret e)]> (documents w)).
    { exists em, u, v. auto 10. }
    destruct (authenticator.generate (now e) (generateSecret e)) as [code|] eqn:Hgen.
    2: { eexists _, _; split; [enter Hp; run_all; reflexivity|].
         issuance_frame; [right; exact Hnew|].
         left; repeat apply conj; [reflexivity|reflexivity|auto|reflexivity]. }
    destruct (sendMail_throws e) eqn:Hsm.
    { eexists _, _; split; [enter Hp; run_all; reflexivity|].
      issuance_frame; [right; exact Hnew|].
      left; repeat apply conj; [reflexivity|reflexivity|auto|reflexivity]. }
    eexists _, _; split; [enter Hp; run_all; reflexivity|].
    issuance_frame; [right; exact Hnew|].
    right. exists em, u, (generateSecret e), code. repeat apply conj; auto.
    + apply lookup_insert_eq.
    + intros E. rewrite E in Hgen. discriminate Hgen.
Qed.

(** X13. A verification that fails, for whatever reason, leaves the world
    as it was: no password, secret, account or mail is touched. *)
Theorem failed_verification_changes_nothing (e : env) (req : request) (w : world) :
  exists r s,
    invoke (verify_otp JSON_parse e req) w = (Returned r, s) /\
    (success r = false -> world_of s = w).
Proof.
  destruct (verify_otp_outcome JSON_parse e req w)
    as (r & s & Hrun & [(_ & _ & _ & Hw & _)|(-> & _)]);
    exists r, s || exists reset_done, s; (split; [exact Hrun|]).
  - intros _. exact Hw.
  - discriminate.
Qed.

(** X14. The verification handler reports success only when the fields
    of the request passed the tests of the validation, the email resolved
    to a user whose profile holds a non-empty secret, and the text of the
    code matched that secret at the time of the call; the password store
    is then the old one with the new password, in its text, set for that
    user. *)
Theorem verification_success_is_sound (e : env) (req : request) (w : world) :
  exists r s,
    invoke (verify_otp JSON_parse e req) w = (Returned r, s) /\
    (success r = true ->
     exists email otp pw u secret,
       carries JSON_parse req email otp pw /\
       validated email otp pw /\
       pending_reset w (ToString email) u secret /\
       authenticator.verify (now e) (ToString otp) secret = Some true /\
       passwords (world_of s) = <[user_id u := ToString pw]> (passwords w)).
Proof.
  destruct (verify_otp_outcome JSON_parse e req w)
    as (r & s & Hrun & [(Hf & _)|(-> & email & otp & pw & u & secret & Hc & Hwf
                                   & _ & Hpr & Hv & _ & Hw & _)]).
  - exists r, s. split; [exact Hrun|]. rewrite Hf. discriminate.
  - exists reset_done, s. split; [exact Hrun|]. intros _.
    exists email, otp, pw, u, secret. rewrite Hw. auto.
Qed.


(** X17. The issuance handler never overwrites a secret that is present:
    whatever the request and the faults, a profile that holds a non-empty
    secret holds the same secret afterwards. *)
Theorem issuance_keeps_present_secrets (e : env) (req : request) (w : world)
    (id secret : string) :
  documents w !! id = Some (VString secret) ->
  secret <> "" ->
  exists r s,
    invoke (send_otp JSON_parse e req) w = (Returned r, s) /\
    documents (world_of s) !! id = Some (VString secret).
Proof.
  intros Hdoc Hne.
  destruct (send_otp_outcome e req w)
    as (r & s & Hrun & _ & _ & _ & _ & Hd & _).
  exists r, s. split; [exact Hrun|].
  destruct Hd as [->|(email & u & v & _ & _ & Hv & Htv & _ & ->)]; [exact Hdoc|].
  destruct (decide (user_id u = id)) as [E|E].
  - rewrite E, Hdoc in Hv. injection Hv as <-.
    cbn [truthy js_of_value] in Htv.
    apply String.eqb_neq in Hne. rewrite Hne in Htv. discriminate.
  - now rewrite lookup_insert_ne.
Qed.

(** X18. Whatever the request, the issuance handler never changes an
    account or a password; it writes to the profile store only the fresh
    secret, into a profile whose secret is absent; and when it reports a
    failure no mail has been delivered. *)
Theorem issuance_frame_holds (e : env) (req : request) (w : world) :
  exists r s,
    invoke (send_otp JSON_parse e req) w = (Returned r, s) /\
    accounts (world_of s) = accounts w /\
    passwords (world_of s) = passwords w /\
    (forall id pw, ~ In (UpdatePassword id pw) (calls s)) /\
    (forall id v', In (UpdateDocument id v') (calls s) ->
       v' = VString (generateSecret e) /\
       exists v : value, documents w !! id = Some v /\ truthy v = false) /\
    (success r = false -> outbox (world_of s) = outbox w).
Proof.
  destruct (send_otp_outcome e req w)
    as (r & s & Hrun & Ha & Hp & Hnp & Hud & _ & Hout).
  exists r, s. repeat apply conj; auto.
  destruct Hout as [(_ & _ & _ & Ho)|(email & u & secret & code & -> & _)];
    [auto|discriminate].
Qed.


(** X16. Every run of either handler ends in a response, never in an
    escaping exception; a failure carries the status 400, 404 or 500, and
    a success is sent without a status; [expiresInMinutes] is present, and
    10, exactly on a successful issuance. *)
Theorem responses_are_coherent (e : env) (req : request) (w : world) :
  (exists r s,
     invoke (verify_otp JSON_parse e req) w = (Returned r, s) /\
     (if success r then status r = None
      else status r = Some 400 \/ status r = Some 404 \/ status r = Some 500) /\
     expiresInMinutes r = None) /\
  (exists r s,
     invoke (send_otp JSON_parse e req) w = (Returned r, s) /\
     (if success r then status r = None
      else status r = Some 400 \/ status r = Some 404 \/ status r = Some 500) /\
     expiresInMinutes r = if success r then Some 10 else None).
Proof.
  split.
  - destruct (verify_otp_outcome JSON_parse e req w)
      as (r & s & Hrun & [(Hf & Hx & Hst & _)|(-> & _)]).
    + exists r, s. split; [exact Hrun|]. rewrite Hf. split; assumption.
    + exists reset_done, s. split; [exact Hrun|]. split; reflexivity.
  - destruct (send_otp_outcome e req w)
      as (r & s & Hrun & _ & _ & _ & _ & _
          & [(Hf & Hx & Hst & _)|(email & u & secret & code & -> & _)]).
    + exists r, s. split; [exact Hrun|]. rewrite Hf. split; assumption.
    + eexists _, s. split; [exact Hrun|]. split; reflexivity.
Qed.

(** X19. When the issuance handler reports success, one mail has been
    delivered, to the request's email; the profile of the resolved user
    then holds a non-empty secret, and the mailed code is six digits that
    verify against that secret at the time of the call. *)
Theorem issued_code_verifies (e : env) (req : request) (w : world) :
  exists r s,
    invoke (send_otp JSON_parse e req) w = (Returned r, s) /\
    (success r = true ->
     exists email u secret code,
       carries_email JSON_parse req email /\
       pending_reset (world_of s) (ToString email) u secret /\
       outbox (world_of s) =
         (outbox w ++ [Mail (ToString email) code OTP_EXPIRY_MINUTES])%list /\
       six_digits code = true /\
       authenticator.verify (now e) code secret = Some true).
Proof.
  destruct (send_otp_outcome e req w)
    as (r & s & Hrun & Ha & _ & _ & _ & _
        & [(Hf & _)|(email & u & secret & code & -> & Hc & Hre & Hl & Hu & Hdoc
                     & Hne & Hgen & Hsm & Hout)]).
  - exists r, s. split; [exact Hrun|]. rewrite Hf. discriminate.
  - eexists _, s. split; [exact Hrun|]. intros _.
    exists email, u, secret, code.
    destruct (generate_verify _ _ _ Hgen) as [Hv H6].
    repeat apply conj; auto.
    unfold matching_users. rewrite Ha. exact Hu.
Qed.

(** X20. Issuance and verification fit together: after a successful
    issuance, a verification request in the same window that carries the
    mailed address, the mailed code and a new password of at least eight
    characters succeeds when its lookups and the password update go
    through; the password is then set and, if the clearing write goes
    through, the secret is null. *)
Theorem issue_then_verify (e1 : env) (req1 : request) (w : world) :
  exists r1 s1,
    invoke (send_otp JSON_parse e1 req1) w = (Returned r1, s1) /\
    (success r1 = true ->
     exists email u code,
       head (matching_users w email) = Some u /\
       outbox (world_of s1) = (outbox w ++ [Mail email code OTP_EXPIRY_MINUTES])%list /\
       forall e2 req2 pw,
         carries JSON_parse req2 (VString email) (VString code) (VString pw) ->
         (8 <= String.length pw)%nat ->
         window_of (now e2) = window_of (now e1) ->
         lookups_succeed e2 ->
         updatePassword_throws e2 = false ->
         exists s2,
           invoke (verify_otp JSON_parse e2 req2) (world_of s1) =
             (Returned reset_done, s2) /\
           passwords (world_of s2) !! user_id u = Some pw /\
           (updateDocument_throws e2 = false ->
            documents (world_of s2) !! user_id u = Some VNull)).
Proof.
  destruct (send_otp_outcome e1 req1 w)
    as (r & s & Hrun & Ha & _ & _ & _ & _
        & [(Hf & _)|(em & u & secret & code & -> & Hc & Hre & Hl & Hu & Hdoc
                     & Hne & Hgen & Hsm & Hout)]).
  - exists r, s. split; [exact Hrun|]. rewrite Hf. discriminate.
  - eexists _, s. split; [exact Hrun|]. intros _.
    remember (ToString em) as email eqn:Eemail.
    exists email, u, code. repeat apply conj; auto.
    intros e2 req2 pw Hc2 Hlen Hwin Hl2 Hup.
    destruct (generate_verify _ _ _ Hgen) as [Hv H6].
    rewrite (verify_same_window _ _ code secret (eq_sym Hwin)) in Hv.
    assert (Hpr : pending_reset (world_of s) email u secret).
    { repeat apply conj; auto. unfold matching_users. rewrite Ha. exact Hu. }
    assert (Hwf : well_formed email code pw).
    { repeat apply conj; auto. now apply email_nonempty. }
    destruct (reset_succeeds JSON_parse e2 req2 (world_of s) email code pw u
                secret Hc2 Hwf Hl2 Hpr Hv Hup) as [logs Hrun2].
    eexists. split; [exact Hrun2|]. cbn [world_of passwords documents].
    split; [apply lookup_insert_eq|].
    intros ->. apply lookup_insert_eq.
Qed.

End Outcomes.

(** * Further properties: the paths of the handlers *)

(** The tests of a well-formed verification request, as the handler reads
    them. *)
Lemma well_formed_tests (email otp pw : string) :
  well_formed email otp pw ->
  String.eqb email "" = false /\ String.eqb otp "" = false /\
  String.eqb pw "" = false /\ Regex.test otpRegex otp = true /\
  (Z.of_nat (String.length pw) <? 8) = false.
Proof.
  intros (Hne & Hsix & Hlen). repeat apply conj.
  - now apply String.eqb_neq.
  - now apply six_digits_nonempty.
  - now apply long_nonempty.
  - now rewrite otpRegex_six_digits.
  - now apply length_ge_8.
Qed.

Lemma email_tests (email : string) :
  Regex.test emailRegex email = true -> String.eqb email "" = false.
Proof. intros H. apply String.eqb_neq. now apply email_nonempty. Qed.

Section Paths.

Variable JSON_parse : string -> option json.

(** X3. Validation of an issuance request is terminal and comes before any
    lookup: a missing email returns the 400 "Email is required", an email
    the pattern rejects returns the 400 "Invalid email format"; neither
    calls a collaborator or changes the world. *)
Theorem issuance_validation_is_terminal (e : env) (req : request) (w : world)
    (email : value) :
  carries_email JSON_parse req email ->
  (truthy email = false ->
   invoke (send_otp JSON_parse e req) w =
   (Returned (failure "Email is required" 400), State w [] [])) /\
  (truthy email = true -> Regex.test emailRegex (ToString email) = false ->
   invoke (send_otp JSON_parse e req) w =
   (Returned (failure "Invalid email format" 400), State w [] [])).
Proof.
  intros (payload & Hp & Hnn & He).
  pose proof (value_converts email) as Hcv.
  split; [intros Ht|intros Ht Hre]; enter Hp; run_all; reflexivity.
Qed.

(** X4. When the directory lookup throws, both handlers return the same
    500 "Error verifying email address", log the fault, make no further
    call and leave the world as it was. *)
Theorem directory_fault (e : env) (w : world) (issue confirm : request)
    (email otp pw : string) :
  carries_email JSON_parse issue (VString email) ->
  Regex.test emailRegex email = true ->
  carries JSON_parse confirm (VString email) (VString otp) (VString pw) ->
  well_formed email otp pw ->
  users_list_throws e = true ->
  invoke (send_otp JSON_parse e issue) w =
    (Returned (failure "Error verifying email address" 500),
     State w [UsersList email]
       [Error "Error finding user:" (ServiceError (UsersList email))]) /\
  invoke (verify_otp JSON_parse e confirm) w =
    invoke (send_otp JSON_parse e issue) w.
Proof.
  intros (pi & Hpi & Hni & Hei) Hre (pc & Hpc & Hnc & Hec & Hoc & Hwc) Hwf Hul.
  destruct (well_formed_tests _ _ _ Hwf) as (T1 & T2 & T3 & T4 & T5).
  assert (Hs : invoke (send_otp JSON_parse e issue) w =
    (Returned (failure "Error verifying email address" 500),
     State w [UsersList email]
       [Error "Error finding user:" (ServiceError (UsersList email))]))
    by (enter Hpi; run_all; reflexivity).
  split; [exact Hs|]. rewrite Hs. enter Hpc. run_all. reflexivity.
Qed.

(** X5. A verification request whose email matches no user returns the 404
    "No account found with this email address" after the one lookup, and
    leaves the world as it was. *)
Theorem verification_unknown_email (e : env) (req : request) (w : world)
    (email otp pw : string) :
  carries JSON_parse req (VString email) (VString otp) (VString pw) ->
  well_formed email otp pw ->
  users_list_throws e = false ->
  matching_users w email = [] ->
  invoke (verify_otp JSON_parse e req) w =
  (Returned (failure "No account found with this email address" 404),
   State w [UsersList email] []).
Proof.
  intros (pc & Hpc & Hnc & Hec & Hoc & Hwc) Hwf Hul Hnone.
  destruct (well_formed_tests _ _ _ Hwf) as (T1 & T2 & T3 & T4 & T5).
  enter Hpc. run_all. reflexivity.
Qed.

(** X6. When the user exists but has no profile document, both handlers
    return the same 404 "User profile not found" after the two lookups and
    leave the world as it was. *)
Theorem profile_missing (e : env) (w : world) (issue confirm : request)
    (email otp pw : string) (u : user) :
  carries_email JSON_parse issue (VString email) ->
  Regex.test emailRegex email = true ->
  carries JSON_parse confirm (VString email) (VString otp) (VString pw) ->
  well_formed email otp pw ->
  lookups_succeed e ->
  head (matching_users w email) = Some u ->
  documents w !! user_id u = None ->
  invoke (send_otp JSON_parse e issue) w =
    (Returned (failure "User profile not found" 404),
     State w [UsersList email; ListDocuments (user_id u)] []) /\
  invoke (verify_otp JSON_parse e confirm) w =
    invoke (send_otp JSON_parse e issue) w.
Proof.
  intros (pi & Hpi & Hni & Hei) Hre (pc & Hpc & Hnc & Hec & Hoc & Hwc) Hwf
         (Hul & Hld) Hu Hdoc.
  destruct (well_formed_tests _ _ _ Hwf) as (T1 & T2 & T3 & T4 & T5).
  assert (Hs : invoke (send_otp JSON_parse e issue) w =
    (Returned (failure "User profile not found" 404),
     State w [UsersList email; ListDocuments (user_id u)] []))
    by (enter Hpi; run_all; reflexivity).
  split; [exact Hs|]. rewrite Hs. enter Hpc. run_all. reflexivity.
Qed.

(** X7. When the profile lookup throws, both handlers return the same 500
    "Error accessing user profile", log the fault and leave the world as it
    was. *)
Theorem profile_lookup_fault (e : env) (w : world) (issue confirm : request)
    (email otp pw : string) (u : user) :
  carries_email JSON_parse issue (VString email) ->
  Regex.test emailRegex email = true ->
  carries JSON_parse confirm (VString email) (VString otp) (VString pw) ->
  well_formed email otp pw ->
  users_list_throws e = false ->
  head (matching_users w email) = Some u ->
  listDocuments_throws e = true ->
  invoke (send_otp JSON_parse e issue) w =
    (Returned (failure "Error accessing user profile" 500),
     State w [UsersList email; ListDocuments (user_id u)]
       [Error "Error fetching user document:"
          (ServiceError (ListDocuments (user_id u)))]) /\
  invoke (verify_otp JSON_parse e confirm) w =
    invoke (send_otp JSON_parse e issue) w.
Proof.
  intros (pi & Hpi & Hni & Hei) Hre (pc & Hpc & Hnc & Hec & Hoc & Hwc) Hwf
         Hul Hu Hld.
  destruct (well_formed_tests _ _ _ Hwf) as (T1 & T2 & T3 & T4 & T5).
  assert (Hs : invoke (send_otp JSON_parse e issue) w =
    (Returned (failure "Error accessing user profile" 500),
     State w [UsersList email; ListDocuments (user_id u)]
       [Error "Error fetching user document:"
          (ServiceError (ListDocuments (user_id u)))]))
    by (enter Hpi; run_all; reflexivity).
  split; [exact Hs|]. rewrite Hs. enter Hpc. run_all. reflexivity.
Qed.

(** X8. A verification for a user whose stored secret is absent
    (undefined, null or the empty string) returns the 400 "No OTP request
    found", whatever the code, without consulting the engine, and leaves
    the world as it was. *)
Theorem no_pending_reset (e : env) (req : request) (w : world)
    (email otp pw : string) (u : user) (v : value) :
  carries JSON_parse req (VString email) (VString otp) (VString pw) ->
  well_formed email otp pw ->
  lookups_succeed e ->
  head (matching_users w email) = Some u ->
  documents w !! user_id u = Some v ->
  truthy v = false ->
  invoke (verify_otp JSON_parse e req) w =
  (Returned (failure "No OTP request found. Please request a new OTP." 400),
   State w [UsersList email; ListDocuments (user_id u)] []).
Proof.
  intros (pc & Hpc & Hnc & Hec & Hoc & Hwc) Hwf (Hul & Hld) Hu Hdoc Htv.
  destruct (well_formed_tests _ _ _ Hwf) as (T1 & T2 & T3 & T4 & T5).
  enter Hpc. run_all. reflexivity.
Qed.

(** X9. Issuance for a user whose stored secret is absent: the fresh
    secret is written to the profile, its code for the current window is
    mailed to the request's email with the 10-minute validity, and the
    response is the success with [expiresInMinutes = 10]; the calls are the
    two lookups, the one write and the one mail, in that order. *)
Theorem issuance_creates_secret (e : env) (req : request) (w : world)
    (email : string) (u : user) (v : value) (code : string) :
  carries_email JSON_parse req (VString email) ->
  Regex.test emailRegex email = true ->
  lookups_succeed e ->
  head (matching_users w email) = Some u ->
  documents w !! user_id u = Some v ->
  truthy v = false ->
  updateDocument_throws e = false ->
  authenticator.generate (now e) (generateSecret e) = Some code ->
  sendMail_throws e = false ->
  invoke (send_otp JSON_parse e req) w =
  (Returned
     (Response true ("OTP sent to " +:+ email +:+ ". Please check your inbox.")
        (Some 10) None),
   State
     (World (accounts w) (passwords w)
        (<[user_id u := VString (generateSecret e)]> (documents w))
        (outbox w ++ [Mail email code 10]))
     [UsersList email; ListDocuments (user_id u);
      UpdateDocument (user_id u) (VString (generateSecret e));
      SendMail (Mail email code 10)]
     [Log ("Generated new password reset secret for user " +:+ user_id u);
      Log ("Generated TOTP for " +:+ email +:+ ": " +:+ code);
      Log ("OTP email sent successfully to " +:+ email)]).
Proof.
  intros (pi & Hpi & Hni & Hei) Hre (Hul & Hld) Hu Hdoc Htv Hud Hgen Hsm.
  pose proof (email_tests _ Hre) as T1.
  enter Hpi. run_all. reflexivity.
Qed.

(** X10. When the write of a fresh secret throws, issuance returns the 500
    "Failed to generate OTP. Please try again.", derives no code, sends no
    mail and leaves the world as it was. *)
Theorem secret_write_failure (e : env) (req : request) (w : world)
    (email : string) (u : user) (v : value) :
  carries_email JSON_parse req (VString email) ->
  Regex.test emailRegex email = true ->
  lookups_succeed e ->
  head (matching_users w email) = Some u ->
  documents w !! user_id u = Some v ->
  truthy v = false ->
  updateDocument_throws e = true ->
  invoke (send_otp JSON_parse e req) w =
  (Returned (failure "Failed to generate OTP. Please try again." 500),
   State w
     [UsersList email; ListDocuments (user_id u);
      UpdateDocument (user_id u) (VString (generateSecret e))]
     [Error "Error updating user secret:"
        (ServiceError (UpdateDocument (user_id u) (VString (generateSecret e))))]).
Proof.
  intros (pi & Hpi & Hni & Hei) Hre (Hul & Hld) Hu Hdoc Htv Hud.
  pose proof (email_tests _ Hre) as T1.
  enter Hpi. run_all. reflexivity.
Qed.

(** X11. When the mail transport throws after a fresh secret was written,
    issuance returns the 500 "Failed to send OTP email. Please try again."
    with the secret kept and nothing delivered; a retry in the same window
    reuses that secret without writing again and delivers the same code. *)
Theorem delivery_failure_then_retry (e : env) (req : request) (w : world)
    (email : string) (u : user) (v : value) (code : string) :
  carries_email JSON_parse req (VString email) ->
  Regex.test emailRegex email = true ->
  lookups_succeed e ->
  head (matching_users w email) = Some u ->
  documents w !! user_id u = Some v ->
  truthy v = false ->
  updateDocument_throws e = false ->
  authenticator.generate (now e) (generateSecret e) = Some code ->
  sendMail_throws e = true ->
  exists s,
    invoke (send_otp JSON_parse e req) w =
      (Returned (failure "Failed to send OTP email. Please try again." 500), s) /\
    documents (world_of s) !! user_id u = Some (VString (generateSecret e)) /\
    outbox (world_of s) = outbox w /\
    forall e',
      window_of (now e') = window_of (now e) ->
      lookups_succeed e' ->
      sendMail_throws e' = false ->
      exists r' s',
        invoke (send_otp JSON_parse e' req) (world_of s) = (Returned r', s') /\
        success r' = true /\
        documents (world_of s') = documents (world_of s) /\
        (forall id v', ~ In (UpdateDocument id v') (calls s')) /\
        outbox (world_of s') = (outbox w ++ [Mail email code 10])%list.
Proof.
  intros (pi & Hpi & Hni & Hei) Hre (Hul & Hld) Hu Hdoc Htv Hud Hgen Hsm.
  pose proof (email_tests _ Hre) as T1.
  eexists. split; [enter Hpi; run_all; reflexivity|].
  cbn [world_of documents outbox].
  split; [apply lookup_insert_eq|]. split; [reflexivity|].
  intros e' Hwin (Hul' & Hld') Hsm'.
  rewrite <- (generate_same_window _ _ (generateSecret e) Hwin) in Hgen.
  assert (Hgs : String.eqb (generateSecret e) "" = false).
  { apply String.eqb_neq. intros E. rewrite E in Hgen. discriminate Hgen. }
  set (w' := World (accounts w) (passwords w)
               (<[user_id u:=VString (generateSecret e)]> (documents w))
               (outbox w)).
  assert (Hu' : head (matching_users w' email) = Some u) by exact Hu.
  assert (Hdoc' : documents w' !! user_id u = Some (VString (generateSecret e)))
    by apply lookup_insert_eq.
  assert (Hout' : outbox w' = outbox w) by reflexivity.
  assert (Hdocs' : documents w' =
                   <[user_id u:=VString (generateSecret e)]> (documents w))
    by reflexivity.
  change (World (accounts w) (passwords w)
            (<[user_id u:=VString (generateSecret e)]> (documents w))
            (outbox w)) with w'.
  clearbody w'.
  eexists _, _. split; [enter Hpi; run_all; reflexivity|].
  cbn [success world_of documents outbox calls].
  repeat apply conj; try reflexivity; try exact Hdocs'.
  intros id v' Hin. cbn [In] in Hin. intuition discriminate.
Qed.

(** X12. When the engine cannot derive a code from the stored secret,
    issuance ends in the outer catch: the generic 500, the fault logged, no
    mail and the world as it was. *)
Theorem issuance_engine_fault (e : env) (req : request) (w : world)
    (email : string) (u : user) (secret : string) :
  carries_email JSON_parse req (VString email) ->
  Regex.test emailRegex email = true ->
  lookups_succeed e ->
  pending_reset w email u secret ->
  authenticator.generate (now e) secret = None ->
  invoke (send_otp JSON_parse e req) w =
  (Returned (failure "An unexpected error occurred. Please try again." 500),
   State w [UsersList email; ListDocuments (user_id u)]
     [Error "Unexpected error:" EngineError]).
Proof.
  intros (pi & Hpi & Hni & Hei) Hre (Hul & Hld) (Hu & Hdoc & Hs) Hgen.
  pose proof (email_tests _ Hre) as T1. apply String.eqb_neq in Hs.
  enter Hpi. run_all. reflexivity.
Qed.

(** X21. A body that parses to [null] makes the destructuring throw: both
    handlers return the generic 500 of the outer catch, call no
    collaborator and leave the world as it was. *)
Theorem null_payload_is_unexpected (e : env) (req : request) (w : world) :
  payload_of JSON_parse req = Some JNull ->
  invoke (verify_otp JSON_parse e req) w =
    (Returned (failure "An unexpected error occurred. Please try again." 500),
     State w [] [Error "Unexpected error:" TypeError]) /\
  invoke (send_otp JSON_parse e req) w =
    invoke (verify_otp JSON_parse e req) w.
Proof.
  intros Hp. split; [enter Hp; run_all; reflexivity|].
  enter Hp. run_all. reflexivity.
Qed.

(** X22. A code that is not the code of the stored secret for the current
    window, a stale one for instance, is rejected with the 400 "Invalid OTP
    or OTP has expired. Please request a new OTP."; the secret stays, so a
    further issuance in that window mails the current code without a
    write. *)
Theorem stale_code_rejected (e : env) (req issue : request) (w : world)
    (email otp pw : string) (u : user) (secret current : string) :
  carries JSON_parse req (VString email) (VString otp) (VString pw) ->
  well_formed email otp pw ->
  lookups_succeed e ->
  pending_reset w email u secret ->
  authenticator.generate (now e) secret = Some current ->
  otp <> current ->
  carries_email JSON_parse issue (VString email) ->
  Regex.test emailRegex email = true ->
  sendMail_throws e = false ->
  invoke (verify_otp JSON_parse e req) w =
    (Returned
       (failure "Invalid OTP or OTP has expired. Please request a new OTP." 400),
     State w [UsersList email; ListDocuments (user_id u)] []) /\
  exists logs,
    invoke (send_otp JSON_parse e issue) w =
    (Returned
       (Response true ("OTP sent to " +:+ email +:+ ". Please check your inbox.")
          (Some 10) None),
     State (World (accounts w) (passwords w) (documents w)
              (outbox w ++ [Mail email current 10]))
       [UsersList email; ListDocuments (user_id u);
        SendMail (Mail email current 10)] logs).
Proof.
  intros (pc & Hpc & Hnc & Hec & Hoc & Hwc) Hwf (Hul & Hld) (Hu & Hdoc & Hs)
         Hgen Hne (pi & Hpi & Hni & Hei) Hre Hsm.
  destruct (well_formed_tests _ _ _ Hwf) as (T1 & T2 & T3 & T4 & T5).
  apply String.eqb_neq in Hs.
  assert (Hv : authenticator.verify (now e) otp secret = Some false).
  { revert Hgen. unfold authenticator.generate, authenticator.verify.
    rewrite derive_strict, matches_strict.
    destruct (Totp.keyDecoder secret) as [key|]; [|discriminate].
    intros H. f_equal. apply String.eqb_neq. congruence. }
  split; [enter Hpc; run_all; reflexivity|].
  eexists. enter Hpi. run_all. reflexivity.
Qed.

(** X23. A field that has no text makes the pattern test throw: a
    verification request whose three fields are present and whose code
    does not convert to a string, and an issuance request whose email does
    not, get the generic 500 of the outer catch, with no call to a
    collaborator and the world as it was. *)
Theorem conversion_fault (e : env) (w : world) (confirm issue : request)
    (email otp pw address : jsvalue) :
  carries JSON_parse confirm email otp pw ->
  truthy email = true -> truthy otp = true -> truthy pw = true ->
  converts otp = false ->
  carries_email JSON_parse issue address ->
  truthy address = true -> converts address = false ->
  invoke (verify_otp JSON_parse e confirm) w =
    (Returned (failure "An unexpected error occurred. Please try again." 500),
     State w [] [Error "Unexpected error:" TypeError]) /\
  invoke (send_otp JSON_parse e issue) w =
    invoke (verify_otp JSON_parse e confirm) w.
Proof.
  intros (pc & Hpc & Hnc & Hec & Hoc & Hwc) Ht1 Ht2 Ht3 Hco
         (pi & Hpi & Hni & Hei) Hta Hca.
  assert (Hv : invoke (verify_otp JSON_parse e confirm) w =
    (Returned (failure "An unexpected error occurred. Please try again." 500),
     State w [] [Error "Unexpected error:" TypeError]))
    by (enter Hpc; run_all; reflexivity).
  split; [exact Hv|]. rewrite Hv. enter Hpi. run_all. reflexivity.
Qed.

End Paths.

(** * The further statements on the sample data *)

Lemma issuance_validation_is_terminal_witness :
  invoke (send_otp Json.parse (Sample.calm Sample.at_issue)
            (Sample.issuance "")) Sample.pending =
    (Returned (failure "Email is required" 400), State Sample.pending [] []) /\
  invoke (send_otp Json.parse (Sample.calm Sample.at_issue)
            (Sample.issuance "not-an-email")) Sample.pending =
    (Returned (failure "Invalid email format" 400), State Sample.pending [] []).
Proof.
  split.
  - apply (issuance_validation_is_terminal Json.parse (Sample.calm Sample.at_issue)
             (Sample.issuance "") Sample.pending (VString ""));
      [evaluate|reflexivity].
  - apply (issuance_validation_is_terminal Json.parse (Sample.calm Sample.at_issue)
             (Sample.issuance "not-an-email") Sample.pending
             (VString "not-an-email"));
      [evaluate|reflexivity|reflexivity].
Defined.

Lemma directory_fault_witness :
  users_list_throws Sample.directory_down = true /\
  invoke (send_otp Json.parse Sample.directory_down (Sample.issuance Sample.email))
    Sample.pending =
    (Returned (failure "Error verifying email address" 500),
     State Sample.pending [UsersList Sample.email]
       [Error "Error finding user:" (ServiceError (UsersList Sample.email))]) /\
  invoke (verify_otp Json.parse Sample.directory_down Sample.confirm) Sample.pending =
    invoke (send_otp Json.parse Sample.directory_down (Sample.issuance Sample.email))
      Sample.pending.
Proof.
  split; [reflexivity|].
  apply (directory_fault Json.parse Sample.directory_down Sample.pending
           (Sample.issuance Sample.email) Sample.confirm
           Sample.email "874294" "NewPass123");
    evaluate.
Defined.

Lemma verification_unknown_email_witness :
  matching_users (World [] ∅ ∅ []) Sample.email = [] /\
  invoke (verify_otp Json.parse (Sample.calm Sample.at_issue) Sample.confirm)
    (World [] ∅ ∅ []) =
  (Returned (failure "No account found with this email address" 404),
   State (World [] ∅ ∅ []) [UsersList Sample.email] []).
Proof.
  split; [reflexivity|].
  apply (verification_unknown_email Json.parse (Sample.calm Sample.at_issue)
           Sample.confirm (World [] ∅ ∅ []) Sample.email "874294" "NewPass123");
    evaluate.
Defined.

Lemma profile_missing_witness :
  documents Sample.no_profile !! user_id Sample.u1 = None /\
  invoke (send_otp Json.parse (Sample.calm Sample.at_issue)
            (Sample.issuance Sample.email)) Sample.no_profile =
    (Returned (failure "User profile not found" 404),
     State Sample.no_profile
       [UsersList Sample.email; ListDocuments (user_id Sample.u1)] []) /\
  invoke (verify_otp Json.parse (Sample.calm Sample.at_issue) Sample.confirm)
    Sample.no_profile =
    invoke (send_otp Json.parse (Sample.calm Sample.at_issue)
              (Sample.issuance Sample.email)) Sample.no_profile.
Proof.
  split; [reflexivity|].
  apply (profile_missing Json.parse (Sample.calm Sample.at_issue) Sample.no_profile
           (Sample.issuance Sample.email) Sample.confirm
           Sample.email "874294" "NewPass123" Sample.u1);
    evaluate.
Defined.

Lemma profile_lookup_fault_witness :
  listDocuments_throws Sample.store_down = true /\
  invoke (send_otp Json.parse Sample.store_down (Sample.issuance Sample.email))
    Sample.pending =
    (Returned (failure "Error accessing user profile" 500),
     State Sample.pending
       [UsersList Sample.email; ListDocuments (user_id Sample.u1)]
       [Error "Error fetching user document:"
          (ServiceError (ListDocuments (user_id Sample.u1)))]) /\
  invoke (verify_otp Json.parse Sample.store_down Sample.confirm) Sample.pending =
    invoke (send_otp Json.parse Sample.store_down (Sample.issuance Sample.email))
      Sample.pending.
Proof.
  split; [reflexivity|].
  apply (profile_lookup_fault Json.parse Sample.store_down Sample.pending
           (Sample.issuance Sample.email) Sample.confirm
           Sample.email "874294" "NewPass123" Sample.u1);
    evaluate.
Defined.

Lemma no_pending_reset_witness :
  documents Sample.idle !! user_id Sample.u1 = Some VNull /\
  invoke (verify_otp Json.parse (Sample.calm Sample.at_issue) Sample.confirm)
    Sample.idle =
  (Returned (failure "No OTP request found. Please request a new OTP." 400),
   State Sample.idle
     [UsersList Sample.email; ListDocuments (user_id Sample.u1)] []).
Proof.
  split; [reflexivity|].
  apply (no_pending_reset Json.parse (Sample.calm Sample.at_issue) Sample.confirm
           Sample.idle Sample.email "874294" "NewPass123" Sample.u1 VNull);
    evaluate.
Defined.

Lemma issuance_creates_secret_witness :
  authenticator.generate Sample.at_issue Sample.fresh_secret = Some "700836" /\
  invoke (send_otp Json.parse (Sample.calm Sample.at_issue)
            (Sample.issuance Sample.email)) Sample.idle =
  (Returned
     (Response true "OTP sent to u1@example.com. Please check your inbox."
        (Some 10) None),
   State
     (World [Sample.u1] ∅ (<["u1" := VString Sample.fresh_secret]> (documents Sample.idle))
        [Mail Sample.email "700836" 10])
     [UsersList Sample.email; ListDocuments "u1";
      UpdateDocument "u1" (VString Sample.fresh_secret);
      SendMail (Mail Sample.email "700836" 10)]
     [Log "Generated new password reset secret for user u1";
      Log "Generated TOTP for u1@example.com: 700836";
      Log "OTP email sent successfully to u1@example.com"]).
Proof.
  split; [evaluate|].
  apply (issuance_creates_secret Json.parse (Sample.calm Sample.at_issue)
           (Sample.issuance Sample.email) Sample.idle Sample.email Sample.u1
           VNull "700836");
    evaluate.
Defined.

Lemma secret_write_failure_witness :
  updateDocument_throws Sample.clear_fails = true /\
  invoke (send_otp Json.parse Sample.clear_fails (Sample.issuance Sample.email))
    Sample.idle =
  (Returned (failure "Failed to generate OTP. Please try again." 500),
   State Sample.idle
     [UsersList Sample.email; ListDocuments (user_id Sample.u1);
      UpdateDocument (user_id Sample.u1) (VString Sample.fresh_secret)]
     [Error "Error updating user secret:"
        (ServiceError
           (UpdateDocument (user_id Sample.u1) (VString Sample.fresh_secret)))]).
Proof.
  split; [reflexivity|].
  apply (secret_write_failure Json.parse Sample.clear_fails
           (Sample.issuance Sample.email) Sample.idle Sample.email Sample.u1 VNull);
    evaluate.
Defined.

Lemma delivery_failure_then_retry_witness :
  sendMail_throws Sample.mail_fails = true /\
  exists s,
    invoke (send_otp Json.parse Sample.mail_fails (Sample.issuance Sample.email))
      Sample.idle =
      (Returned (failure "Failed to send OTP email. Please try again." 500), s) /\
    documents (world_of s) !! user_id Sample.u1 =
      Some (VString (generateSecret Sample.mail_fails)) /\
    outbox (world_of s) = outbox Sample.idle /\
    forall e',
      window_of (now e') = window_of (now Sample.mail_fails) ->
      lookups_succeed e' ->
      sendMail_throws e' = false ->
      exists r' s',
        invoke (send_otp Json.parse e' (Sample.issuance Sample.email)) (world_of s) =
          (Returned r', s') /\
        success r' = true /\
        documents (world_of s') = documents (world_of s) /\
        (forall id v', ~ In (UpdateDocument id v') (calls s')) /\
        outbox (world_of s') =
          (outbox Sample.idle ++ [Mail Sample.email "700836" 10])%list.
Proof.
  split; [reflexivity|].
  apply (delivery_failure_then_retry Json.parse Sample.mail_fails
           (Sample.issuance Sample.email) Sample.idle Sample.email Sample.u1
           VNull "700836");
    evaluate.
Defined.

Lemma issuance_engine_fault_witness :
  authenticator.generate Sample.at_issue Sample.undecodable = None /\
  invoke (send_otp Json.parse (Sample.calm Sample.at_issue)
            (Sample.issuance Sample.email))
    (Sample.world_with (VString Sample.undecodable)) =
  (Returned (failure "An unexpected error occurred. Please try again." 500),
   State (Sample.world_with (VString Sample.undecodable))
     [UsersList Sample.email; ListDocuments (user_id Sample.u1)]
     [Error "Unexpected error:" EngineError]).
Proof.
  split; [evaluate|].
  apply (issuance_engine_fault Json.parse (Sample.calm Sample.at_issue)
           (Sample.issuance Sample.email)
           (Sample.world_with (VString Sample.undecodable))
           Sample.email Sample.u1 Sample.undecodable);
    evaluate.
Defined.

Lemma null_payload_is_unexpected_witness :
  Json.parse "null" = Some JNull /\
  invoke (verify_otp Json.parse (Sample.calm Sample.at_issue)
            (Request (VString "null"))) Sample.pending =
    (Returned (failure "An unexpected error occurred. Please try again." 500),
     State Sample.pending [] [Error "Unexpected error:" TypeError]) /\
  invoke (send_otp Json.parse (Sample.calm Sample.at_issue)
            (Request (VString "null"))) Sample.pending =
    invoke (verify_otp Json.parse (Sample.calm Sample.at_issue)
              (Request (VString "null"))) Sample.pending.
Proof.
  split; [reflexivity|].
  apply (null_payload_is_unexpected Json.parse (Sample.calm Sample.at_issue)
           (Request (VString "null")) Sample.pending).
  reflexivity.
Defined.

Lemma issuance_keeps_present_secrets_witness :
  documents Sample.pending !! "u1" = Some (VString Sample.secret) /\
  exists r s,
    invoke (send_otp Json.parse Sample.mail_fails (Sample.issuance Sample.email))
      Sample.pending = (Returned r, s) /\
    documents (world_of s) !! "u1" = Some (VString Sample.secret).
Proof.
  split; [evaluate|].
  apply (issuance_keeps_present_secrets Json.parse Sample.mail_fails
           (Sample.issuance Sample.email) Sample.pending "u1" Sample.secret);
    [evaluate|discriminate].
Defined.

Lemma stale_code_rejected_witness :
  authenticator.generate Sample.at_issue Sample.secret = Some "874294" /\
  invoke (verify_otp Json.parse (Sample.calm Sample.at_issue)
            (Sample.verification "282760" "NewPass123")) Sample.pending =
    (Returned
       (failure "Invalid OTP or OTP has expired. Please request a new OTP." 400),
     State Sample.pending
       [UsersList Sample.email; ListDocuments (user_id Sample.u1)] []) /\
  exists logs,
    invoke (send_otp Json.parse (Sample.calm Sample.at_issue)
              (Sample.issuance Sample.email)) Sample.pending =
    (Returned
       (Response true
          ("OTP sent to " +:+ Sample.email +:+ ". Please check your inbox.")
          (Some 10) None),
     State (World (accounts Sample.pending) (passwords Sample.pending)
              (documents Sample.pending)
              (outbox Sample.pending ++ [Mail Sample.email "874294" 10]))
       [UsersList Sample.email; ListDocuments (user_id Sample.u1);
        SendMail (Mail Sample.email "874294" 10)] logs).
Proof.
  split; [evaluate|].
  apply (stale_code_rejected Json.parse (Sample.calm Sample.at_issue)
           (Sample.verification "282760" "NewPass123")
           (Sample.issuance Sample.email) Sample.pending
           Sample.email "282760" "NewPass123" Sample.u1 Sample.secret "874294");
    first [evaluate|discriminate].
Defined.

Lemma conversion_fault_witness :
  invoke (verify_otp Json.parse (Sample.calm Sample.at_issue)
            Sample.unprintable_code) Sample.pending =
    (Returned (failure "An unexpected error occurred. Please try again." 500),
     State Sample.pending [] [Error "Unexpected error:" TypeError]) /\
  invoke (send_otp Json.parse (Sample.calm Sample.at_issue)
            Sample.unprintable_email) Sample.pending =
    invoke (verify_otp Json.parse (Sample.calm Sample.at_issue)
              Sample.unprintable_code) Sample.pending.
Proof.
  apply (conversion_fault Json.parse (Sample.calm Sample.at_issue)
           Sample.pending Sample.unprintable_code Sample.unprintable_email
           (JsString Sample.email)
           (JsOther (Observed true "[object Object]" false (Some false)))
           (JsString "short1")
           (JsOther (Observed true "[object Object]" false (Some false))));
    try reflexivity.
  - eexists; repeat apply conj; [vm_compute; reflexivity|discriminate|..];
      reflexivity.
  - eexists; repeat apply conj; [vm_compute; reflexivity|discriminate|..];
      reflexivity.
Defined.
